(** * Flash-sale post generator: a shallow embedding of [main.py]

    The development follows the class [FlashSalePostGenerator]: the query
    contract validator, the row normaliser, the tracking-link client, the
    post renderer, the per-record loop and the webhook dispatcher.

    Conventions of the embedding.
    - A Python [str] is held as the [string] of the bytes of its UTF-8
      encoding; [str.lower] decodes it and works on the code points, with
      the case mapping of CPython 3.11 (Unicode 14.0).
    - Dynamically typed scalars (warehouse cells, JSON leaves) are [atom]s,
      decoded JSON documents are [json] values with objects as [gmap]s.
    - The outside world (wall clock, HTTP endpoints, the page on which
      Streamlit prints) is an explicit [world] threaded through a state
      and exception monad.  Of the [st.*] display calls only those that
      report something the program computes (the missing columns, the run
      summary) are recorded; the progress banners are not.
    - Exceptions are the subclasses of Python's [Exception]. *)

From Stdlib Require Import ZArith List Ascii String Lia.
From Stdlib Require Import Floats.SpecFloat.
From stdpp Require Import base gmap strings pretty list.

Open Scope string_scope.
Open Scope list_scope.

(** ** Unicode case mapping

    [str.lower] works on code points.  The two tables below are those of
    the Unicode Character Database 14.0, as CPython 3.11 carries them in
    [Objects/unicodetype_db.h], compressed into ranges. *)

Module Unicode.

Open Scope N_scope.

(** Code points with a one-character lower-case mapping, as entries
    [(lo, hi, stride, target)]: every [stride]-th code point [c] of
    [lo..hi] maps to [target + (c - lo)]. *)
Definition LOWER_RANGES : list (N * N * N * N) :=
  [
    (65, 90, 1, 97); (192, 214, 1, 224); (216, 222, 1, 248); (256, 302, 2, 257);
    (306, 310, 2, 307); (313, 327, 2, 314); (330, 374, 2, 331); (376, 376, 1, 255);
    (377, 381, 2, 378); (385, 385, 1, 595); (386, 388, 2, 387); (390, 390, 1, 596);
    (391, 391, 1, 392); (393, 394, 1, 598); (395, 395, 1, 396); (398, 398, 1, 477);
    (399, 399, 1, 601); (400, 400, 1, 603); (401, 401, 1, 402); (403, 403, 1, 608);
    (404, 404, 1, 611); (406, 406, 1, 617); (407, 407, 1, 616); (408, 408, 1, 409);
    (412, 412, 1, 623); (413, 413, 1, 626); (415, 415, 1, 629); (416, 420, 2, 417);
    (422, 422, 1, 640); (423, 423, 1, 424); (425, 425, 1, 643); (428, 428, 1, 429);
    (430, 430, 1, 648); (431, 431, 1, 432); (433, 434, 1, 650); (435, 437, 2, 436);
    (439, 439, 1, 658); (440, 440, 1, 441); (444, 444, 1, 445); (452, 452, 1, 454);
    (453, 453, 1, 454); (455, 455, 1, 457); (456, 456, 1, 457); (458, 458, 1, 460);
    (459, 475, 2, 460); (478, 494, 2, 479); (497, 497, 1, 499); (498, 500, 2, 499);
    (502, 502, 1, 405); (503, 503, 1, 447); (504, 542, 2, 505); (544, 544, 1, 414);
    (546, 562, 2, 547); (570, 570, 1, 11365); (571, 571, 1, 572); (573, 573, 1, 410);
    (574, 574, 1, 11366); (577, 577, 1, 578); (579, 579, 1, 384); (580, 580, 1, 649);
    (581, 581, 1, 652); (582, 590, 2, 583); (880, 882, 2, 881); (886, 886, 1, 887);
    (895, 895, 1, 1011); (902, 902, 1, 940); (904, 906, 1, 941); (908, 908, 1, 972);
    (910, 911, 1, 973); (913, 929, 1, 945); (931, 939, 1, 963); (975, 975, 1, 983);
    (984, 1006, 2, 985); (1012, 1012, 1, 952); (1015, 1015, 1, 1016); (1017, 1017, 1, 1010);
    (1018, 1018, 1, 1019); (1021, 1023, 1, 891); (1024, 1039, 1, 1104); (1040, 1071, 1, 1072);
    (1120, 1152, 2, 1121); (1162, 1214, 2, 1163); (1216, 1216, 1, 1231); (1217, 1229, 2, 1218);
    (1232, 1326, 2, 1233); (1329, 1366, 1, 1377); (4256, 4293, 1, 11520); (4295, 4295, 1, 11559);
    (4301, 4301, 1, 11565); (5024, 5103, 1, 43888); (5104, 5109, 1, 5112); (7312, 7354, 1, 4304);
    (7357, 7359, 1, 4349); (7680, 7828, 2, 7681); (7838, 7838, 1, 223); (7840, 7934, 2, 7841);
    (7944, 7951, 1, 7936); (7960, 7965, 1, 7952); (7976, 7983, 1, 7968); (7992, 7999, 1, 7984);
    (8008, 8013, 1, 8000); (8025, 8031, 2, 8017); (8040, 8047, 1, 8032); (8072, 8079, 1, 8064);
    (8088, 8095, 1, 8080); (8104, 8111, 1, 8096); (8120, 8121, 1, 8112); (8122, 8123, 1, 8048);
    (8124, 8124, 1, 8115); (8136, 8139, 1, 8050); (8140, 8140, 1, 8131); (8152, 8153, 1, 8144);
    (8154, 8155, 1, 8054); (8168, 8169, 1, 8160); (8170, 8171, 1, 8058); (8172, 8172, 1, 8165);
    (8184, 8185, 1, 8056); (8186, 8187, 1, 8060); (8188, 8188, 1, 8179); (8486, 8486, 1, 969);
    (8490, 8490, 1, 107); (8491, 8491, 1, 229); (8498, 8498, 1, 8526); (8544, 8559, 1, 8560);
    (8579, 8579, 1, 8580); (9398, 9423, 1, 9424); (11264, 11311, 1, 11312); (11360, 11360, 1, 11361);
    (11362, 11362, 1, 619); (11363, 11363, 1, 7549); (11364, 11364, 1, 637); (11367, 11371, 2, 11368);
    (11373, 11373, 1, 593); (11374, 11374, 1, 625); (11375, 11375, 1, 592); (11376, 11376, 1, 594);
    (11378, 11378, 1, 11379); (11381, 11381, 1, 11382); (11390, 11391, 1, 575); (11392, 11490, 2, 11393);
    (11499, 11501, 2, 11500); (11506, 11506, 1, 11507); (42560, 42604, 2, 42561); (42624, 42650, 2, 42625);
    (42786, 42798, 2, 42787); (42802, 42862, 2, 42803); (42873, 42875, 2, 42874); (42877, 42877, 1, 7545);
    (42878, 42886, 2, 42879); (42891, 42891, 1, 42892); (42893, 42893, 1, 613); (42896, 42898, 2, 42897);
    (42902, 42920, 2, 42903); (42922, 42922, 1, 614); (42923, 42923, 1, 604); (42924, 42924, 1, 609);
    (42925, 42925, 1, 620); (42926, 42926, 1, 618); (42928, 42928, 1, 670); (42929, 42929, 1, 647);
    (42930, 42930, 1, 669); (42931, 42931, 1, 43859); (42932, 42946, 2, 42933); (42948, 42948, 1, 42900);
    (42949, 42949, 1, 642); (42950, 42950, 1, 7566); (42951, 42953, 2, 42952); (42960, 42960, 1, 42961);
    (42966, 42968, 2, 42967); (42997, 42997, 1, 42998); (65313, 65338, 1, 65345); (66560, 66599, 1, 66600);
    (66736, 66771, 1, 66776); (66928, 66938, 1, 66967); (66940, 66954, 1, 66979); (66956, 66962, 1, 66995);
    (66964, 66965, 1, 67003); (68736, 68786, 1, 68800); (71840, 71871, 1, 71872); (93760, 93791, 1, 93792);
    (125184, 125217, 1, 125218)
  ].

(** The code points that matter to the final-sigma rule, as entries
    [(lo, hi, cased)]: [cased = true] for a cased code point that is not
    case-ignorable, [cased = false] for a case-ignorable one. *)
Definition CASE_RANGES : list (N * N * bool) :=
  [
    (39, 39, false); (46, 46, false); (58, 58, false); (65, 90, true); (94, 94, false);
    (96, 96, false); (97, 122, true); (168, 168, false); (170, 170, true); (173, 173, false);
    (175, 175, false); (180, 180, false); (181, 181, true); (183, 184, false); (186, 186, true);
    (192, 214, true); (216, 246, true); (248, 442, true); (444, 447, true); (452, 659, true);
    (661, 687, true); (688, 879, false); (880, 883, true); (884, 885, false); (886, 887, true);
    (890, 890, false); (891, 893, true); (895, 895, true); (900, 901, false); (902, 902, true);
    (903, 903, false); (904, 906, true); (908, 908, true); (910, 929, true); (931, 1013, true);
    (1015, 1153, true); (1155, 1161, false); (1162, 1327, true); (1329, 1366, true); (1369, 1369, false);
    (1375, 1375, false); (1376, 1416, true); (1425, 1469, false); (1471, 1471, false); (1473, 1474, false);
    (1476, 1477, false); (1479, 1479, false); (1524, 1524, false); (1536, 1541, false); (1552, 1562, false);
    (1564, 1564, false); (1600, 1600, false); (1611, 1631, false); (1648, 1648, false); (1750, 1757, false);
    (1759, 1768, false); (1770, 1773, false); (1807, 1807, false); (1809, 1809, false); (1840, 1866, false);
    (1958, 1968, false); (2027, 2037, false); (2042, 2042, false); (2045, 2045, false); (2070, 2093, false);
    (2137, 2139, false); (2184, 2184, false); (2192, 2193, false); (2200, 2207, false); (2249, 2306, false);
    (2362, 2362, false); (2364, 2364, false); (2369, 2376, false); (2381, 2381, false); (2385, 2391, false);
    (2402, 2403, false); (2417, 2417, false); (2433, 2433, false); (2492, 2492, false); (2497, 2500, false);
    (2509, 2509, false); (2530, 2531, false); (2558, 2558, false); (2561, 2562, false); (2620, 2620, false);
    (2625, 2626, false); (2631, 2632, false); (2635, 2637, false); (2641, 2641, false); (2672, 2673, false);
    (2677, 2677, false); (2689, 2690, false); (2748, 2748, false); (2753, 2757, false); (2759, 2760, false);
    (2765, 2765, false); (2786, 2787, false); (2810, 2815, false); (2817, 2817, false); (2876, 2876, false);
    (2879, 2879, false); (2881, 2884, false); (2893, 2893, false); (2901, 2902, false); (2914, 2915, false);
    (2946, 2946, false); (3008, 3008, false); (3021, 3021, false); (3072, 3072, false); (3076, 3076, false);
    (3132, 3132, false); (3134, 3136, false); (3142, 3144, false); (3146, 3149, false); (3157, 3158, false);
    (3170, 3171, false); (3201, 3201, false); (3260, 3260, false); (3263, 3263, false); (3270, 3270, false);
    (3276, 3277, false); (3298, 3299, false); (3328, 3329, false); (3387, 3388, false); (3393, 3396, false);
    (3405, 3405, false); (3426, 3427, false); (3457, 3457, false); (3530, 3530, false); (3538, 3540, false);
    (3542, 3542, false); (3633, 3633, false); (3636, 3642, false); (3654, 3662, false); (3761, 3761, false);
    (3764, 3772, false); (3782, 3782, false); (3784, 3789, false); (3864, 3865, false); (3893, 3893, false);
    (3895, 3895, false); (3897, 3897, false); (3953, 3966, false); (3968, 3972, false); (3974, 3975, false);
    (3981, 3991, false); (3993, 4028, false); (4038, 4038, false); (4141, 4144, false); (4146, 4151, false);
    (4153, 4154, false); (4157, 4158, false); (4184, 4185, false); (4190, 4192, false); (4209, 4212, false);
    (4226, 4226, false); (4229, 4230, false); (4237, 4237, false); (4253, 4253, false); (4256, 4293, true);
    (4295, 4295, true); (4301, 4301, true); (4304, 4346, true); (4348, 4348, false); (4349, 4351, true);
    (4957, 4959, false); (5024, 5109, true); (5112, 5117, true); (5906, 5908, false); (5938, 5939, false);
    (5970, 5971, false); (6002, 6003, false); (6068, 6069, false); (6071, 6077, false); (6086, 6086, false);
    (6089, 6099, false); (6103, 6103, false); (6109, 6109, false); (6155, 6159, false); (6211, 6211, false);
    (6277, 6278, false); (6313, 6313, false); (6432, 6434, false); (6439, 6440, false); (6450, 6450, false);
    (6457, 6459, false); (6679, 6680, false); (6683, 6683, false); (6742, 6742, false); (6744, 6750, false);
    (6752, 6752, false); (6754, 6754, false); (6757, 6764, false); (6771, 6780, false); (6783, 6783, false);
    (6823, 6823, false); (6832, 6862, false); (6912, 6915, false); (6964, 6964, false); (6966, 6970, false);
    (6972, 6972, false); (6978, 6978, false); (7019, 7027, false); (7040, 7041, false); (7074, 7077, false);
    (7080, 7081, false); (7083, 7085, false); (7142, 7142, false); (7144, 7145, false); (7149, 7149, false);
    (7151, 7153, false); (7212, 7219, false); (7222, 7223, false); (7288, 7293, false); (7296, 7304, true);
    (7312, 7354, true); (7357, 7359, true); (7376, 7378, false); (7380, 7392, false); (7394, 7400, false);
    (7405, 7405, false); (7412, 7412, false); (7416, 7417, false); (7424, 7467, true); (7468, 7530, false);
    (7531, 7543, true); (7544, 7544, false); (7545, 7578, true); (7579, 7679, false); (7680, 7957, true);
    (7960, 7965, true); (7968, 8005, true); (8008, 8013, true); (8016, 8023, true); (8025, 8025, true);
    (8027, 8027, true); (8029, 8029, true); (8031, 8061, true); (8064, 8116, true); (8118, 8124, true);
    (8125, 8125, false); (8126, 8126, true); (8127, 8129, false); (8130, 8132, true); (8134, 8140, true);
    (8141, 8143, false); (8144, 8147, true); (8150, 8155, true); (8157, 8159, false); (8160, 8172, true);
    (8173, 8175, false); (8178, 8180, true); (8182, 8188, true); (8189, 8190, false); (8203, 8207, false);
    (8216, 8217, false); (8228, 8228, false); (8231, 8231, false); (8234, 8238, false); (8288, 8292, false);
    (8294, 8303, false); (8305, 8305, false); (8319, 8319, false); (8336, 8348, false); (8400, 8432, false);
    (8450, 8450, true); (8455, 8455, true); (8458, 8467, true); (8469, 8469, true); (8473, 8477, true);
    (8484, 8484, true); (8486, 8486, true); (8488, 8488, true); (8490, 8493, true); (8495, 8500, true);
    (8505, 8505, true); (8508, 8511, true); (8517, 8521, true); (8526, 8526, true); (8544, 8575, true);
    (8579, 8580, true); (9398, 9449, true); (11264, 11387, true); (11388, 11389, false); (11390, 11492, true);
    (11499, 11502, true); (11503, 11505, false); (11506, 11507, true); (11520, 11557, true); (11559, 11559, true);
    (11565, 11565, true); (11631, 11631, false); (11647, 11647, false); (11744, 11775, false); (11823, 11823, false);
    (12293, 12293, false); (12330, 12333, false); (12337, 12341, false); (12347, 12347, false); (12441, 12446, false);
    (12540, 12542, false); (40981, 40981, false); (42232, 42237, false); (42508, 42508, false); (42560, 42605, true);
    (42607, 42610, false); (42612, 42621, false); (42623, 42623, false); (42624, 42651, true); (42652, 42655, false);
    (42736, 42737, false); (42752, 42785, false); (42786, 42863, true); (42864, 42864, false); (42865, 42887, true);
    (42888, 42890, false); (42891, 42894, true); (42896, 42954, true); (42960, 42961, true); (42963, 42963, true);
    (42965, 42969, true); (42994, 42996, false); (42997, 42998, true); (43000, 43001, false); (43002, 43002, true);
    (43010, 43010, false); (43014, 43014, false); (43019, 43019, false); (43045, 43046, false); (43052, 43052, false);
    (43204, 43205, false); (43232, 43249, false); (43263, 43263, false); (43302, 43309, false); (43335, 43345, false);
    (43392, 43394, false); (43443, 43443, false); (43446, 43449, false); (43452, 43453, false); (43471, 43471, false);
    (43493, 43494, false); (43561, 43566, false); (43569, 43570, false); (43573, 43574, false); (43587, 43587, false);
    (43596, 43596, false); (43632, 43632, false); (43644, 43644, false); (43696, 43696, false); (43698, 43700, false);
    (43703, 43704, false); (43710, 43711, false); (43713, 43713, false); (43741, 43741, false); (43756, 43757, false);
    (43763, 43764, false); (43766, 43766, false); (43824, 43866, true); (43867, 43871, false); (43872, 43880, true);
    (43881, 43883, false); (43888, 43967, true); (44005, 44005, false); (44008, 44008, false); (44013, 44013, false);
    (64256, 64262, true); (64275, 64279, true); (64286, 64286, false); (64434, 64450, false); (65024, 65039, false);
    (65043, 65043, false); (65056, 65071, false); (65106, 65106, false); (65109, 65109, false); (65279, 65279, false);
    (65287, 65287, false); (65294, 65294, false); (65306, 65306, false); (65313, 65338, true); (65342, 65342, false);
    (65344, 65344, false); (65345, 65370, true); (65392, 65392, false); (65438, 65439, false); (65507, 65507, false);
    (65529, 65531, false); (66045, 66045, false); (66272, 66272, false); (66422, 66426, false); (66560, 66639, true);
    (66736, 66771, true); (66776, 66811, true); (66928, 66938, true); (66940, 66954, true); (66956, 66962, true);
    (66964, 66965, true); (66967, 66977, true); (66979, 66993, true); (66995, 67001, true); (67003, 67004, true);
    (67456, 67461, false); (67463, 67504, false); (67506, 67514, false); (68097, 68099, false); (68101, 68102, false);
    (68108, 68111, false); (68152, 68154, false); (68159, 68159, false); (68325, 68326, false); (68736, 68786, true);
    (68800, 68850, true); (68900, 68903, false); (69291, 69292, false); (69446, 69456, false); (69506, 69509, false);
    (69633, 69633, false); (69688, 69702, false); (69744, 69744, false); (69747, 69748, false); (69759, 69761, false);
    (69811, 69814, false); (69817, 69818, false); (69821, 69821, false); (69826, 69826, false); (69837, 69837, false);
    (69888, 69890, false); (69927, 69931, false); (69933, 69940, false); (70003, 70003, false); (70016, 70017, false);
    (70070, 70078, false); (70089, 70092, false); (70095, 70095, false); (70191, 70193, false); (70196, 70196, false);
    (70198, 70199, false); (70206, 70206, false); (70367, 70367, false); (70371, 70378, false); (70400, 70401, false);
    (70459, 70460, false); (70464, 70464, false); (70502, 70508, false); (70512, 70516, false); (70712, 70719, false);
    (70722, 70724, false); (70726, 70726, false); (70750, 70750, false); (70835, 70840, false); (70842, 70842, false);
    (70847, 70848, false); (70850, 70851, false); (71090, 71093, false); (71100, 71101, false); (71103, 71104, false);
    (71132, 71133, false); (71219, 71226, false); (71229, 71229, false); (71231, 71232, false); (71339, 71339, false);
    (71341, 71341, false); (71344, 71349, false); (71351, 71351, false); (71453, 71455, false); (71458, 71461, false);
    (71463, 71467, false); (71727, 71735, false); (71737, 71738, false); (71840, 71903, true); (71995, 71996, false);
    (71998, 71998, false); (72003, 72003, false); (72148, 72151, false); (72154, 72155, false); (72160, 72160, false);
    (72193, 72202, false); (72243, 72248, false); (72251, 72254, false); (72263, 72263, false); (72273, 72278, false);
    (72281, 72283, false); (72330, 72342, false); (72344, 72345, false); (72752, 72758, false); (72760, 72765, false);
    (72767, 72767, false); (72850, 72871, false); (72874, 72880, false); (72882, 72883, false); (72885, 72886, false);
    (73009, 73014, false); (73018, 73018, false); (73020, 73021, false); (73023, 73029, false); (73031, 73031, false);
    (73104, 73105, false); (73109, 73109, false); (73111, 73111, false); (73459, 73460, false); (78896, 78904, false);
    (92912, 92916, false); (92976, 92982, false); (92992, 92995, false); (93760, 93823, true); (94031, 94031, false);
    (94095, 94111, false); (94176, 94177, false); (94179, 94180, false); (110576, 110579, false); (110581, 110587, false);
    (110589, 110590, false); (113821, 113822, false); (113824, 113827, false); (118528, 118573, false); (118576, 118598, false);
    (119143, 119145, false); (119155, 119170, false); (119173, 119179, false); (119210, 119213, false); (119362, 119364, false);
    (119808, 119892, true); (119894, 119964, true); (119966, 119967, true); (119970, 119970, true); (119973, 119974, true);
    (119977, 119980, true); (119982, 119993, true); (119995, 119995, true); (119997, 120003, true); (120005, 120069, true);
    (120071, 120074, true); (120077, 120084, true); (120086, 120092, true); (120094, 120121, true); (120123, 120126, true);
    (120128, 120132, true); (120134, 120134, true); (120138, 120144, true); (120146, 120485, true); (120488, 120512, true);
    (120514, 120538, true); (120540, 120570, true); (120572, 120596, true); (120598, 120628, true); (120630, 120654, true);
    (120656, 120686, true); (120688, 120712, true); (120714, 120744, true); (120746, 120770, true); (120772, 120779, true);
    (121344, 121398, false); (121403, 121452, false); (121461, 121461, false); (121476, 121476, false); (121499, 121503, false);
    (121505, 121519, false); (122624, 122633, true); (122635, 122654, true); (122880, 122886, false); (122888, 122904, false);
    (122907, 122913, false); (122915, 122916, false); (122918, 122922, false); (123184, 123197, false); (123566, 123566, false);
    (123628, 123631, false); (125136, 125142, false); (125184, 125251, true); (125252, 125259, false); (127280, 127305, true);
    (127312, 127337, true); (127344, 127369, true); (127995, 127999, false); (917505, 917505, false); (917536, 917631, false);
    (917760, 917999, false)
  ].

Definition in_range (c lo hi : N) : bool := (lo <=? c) && (c <=? hi).

(** [_PyUnicode_ToLowerFull]: the lower case of one code point.  U+0130
    is the only code point whose lower case has two code points. *)
Definition to_lower_full (c : N) : list N :=
  if c =? 304 then [105; 775]
  else
    match find (fun '(lo, hi, stride, _) =>
                  in_range c lo hi && ((c - lo) mod stride =? 0))
               LOWER_RANGES with
    | Some (lo, _, _, target) => [target + (c - lo)]
    | None => [c]
    end.

Definition case_class (c : N) : option bool :=
  option_map snd (find (fun '(lo, hi, _) => in_range c lo hi) CASE_RANGES).

(** [_PyUnicode_IsCaseIgnorable]. *)
Definition is_case_ignorable (c : N) : bool :=
  match case_class c with Some false => true | _ => false end.

(** [_PyUnicode_IsCased], which [handle_capital_sigma] consults only on
    code points that are not case-ignorable. *)
Definition is_cased (c : N) : bool :=
  match case_class c with Some true => true | _ => false end.

Fixpoint skip_ignorable (l : list N) : list N :=
  match l with
  | [] => []
  | c :: r => if is_case_ignorable c then skip_ignorable r else l
  end.

(** [handle_capital_sigma]: U+03A3 is lowered to the final sigma U+03C2
    when, case-ignorable code points apart, a cased code point precedes it
    and none follows it.  [before] is the text before the sigma, nearest
    code point first. *)
Definition final_sigma (before after : list N) : bool :=
  match skip_ignorable before with
  | [] => false
  | c :: _ => is_cased c
  end &&
  match skip_ignorable after with
  | [] => true
  | c :: _ => negb (is_cased c)
  end.

(** [do_lower]: the loop of [lower_ucs4] over the code points. *)
Fixpoint do_lower (before l : list N) : list N :=
  match l with
  | [] => []
  | c :: after =>
    (if c =? 931
     then [if final_sigma before after then 962 else 963]
     else to_lower_full c)
    ++ do_lower (c :: before) after
  end.

Definition lower (l : list N) : list N := do_lower [] l.

(** *** UTF-8

    A byte that does not start a well-formed sequence is kept as a value
    above the code space, which [lower] leaves alone and [encode] writes
    back as the same byte. *)
Definition STRAY : N := 1114112.

Definition continuation (b : ascii) : option N :=
  let n := N_of_ascii b in
  if in_range n 128 191 then Some (n - 128) else None.

Fixpoint decode (s : string) : list N :=
  match s with
  | EmptyString => []
  | String b0 r =>
    let n0 := N_of_ascii b0 in
    if n0 <? 128 then n0 :: decode r
    else if in_range n0 194 223 then
      match r with
      | String b1 r1 =>
        match continuation b1 with
        | Some n1 => ((n0 - 192) * 64 + n1) :: decode r1
        | None => (STRAY + n0) :: decode r
        end
      | _ => (STRAY + n0) :: decode r
      end
    else if in_range n0 224 239 then
      match r with
      | String b1 (String b2 r2) =>
        match continuation b1, continuation b2 with
        | Some n1, Some n2 =>
          let c := (n0 - 224) * 4096 + n1 * 64 + n2 in
          if (2048 <=? c) && negb (in_range c 55296 57343)
          then c :: decode r2
          else (STRAY + n0) :: decode r
        | _, _ => (STRAY + n0) :: decode r
        end
      | _ => (STRAY + n0) :: decode r
      end
    else if in_range n0 240 244 then
      match r with
      | String b1 (String b2 (String b3 r3)) =>
        match continuation b1, continuation b2, continuation b3 with
        | Some n1, Some n2, Some n3 =>
          let c := (n0 - 240) * 262144 + n1 * 4096 + n2 * 64 + n3 in
          if in_range c 65536 1114111
          then c :: decode r3
          else (STRAY + n0) :: decode r
        | _, _, _ => (STRAY + n0) :: decode r
        end
      | _ => (STRAY + n0) :: decode r
      end
    else (STRAY + n0) :: decode r
  end.

Definition encode_point (c : N) : string :=
  if c <? 128 then String (ascii_of_N c) ""
  else if c <? 2048 then
    String (ascii_of_N (192 + c / 64))
      (String (ascii_of_N (128 + c mod 64)) "")
  else if c <? 65536 then
    String (ascii_of_N (224 + c / 4096))
      (String (ascii_of_N (128 + (c / 64) mod 64))
         (String (ascii_of_N (128 + c mod 64)) ""))
  else if c <? STRAY then
    String (ascii_of_N (240 + c / 262144))
      (String (ascii_of_N (128 + (c / 4096) mod 64))
         (String (ascii_of_N (128 + (c / 64) mod 64))
            (String (ascii_of_N (128 + c mod 64)) "")))
  else String (ascii_of_N (c - STRAY)) "".

Fixpoint encode (l : list N) : string :=
  match l with
  | [] => ""
  | c :: r => encode_point c +:+ encode r
  end.

End Unicode.

(** ** Strings *)

Module Str.

(** [s.lower()]: the text is decoded, lowered code point by code point and
    encoded again. *)
Definition lower (s : string) : string :=
  Unicode.encode (Unicode.lower (Unicode.decode s)).

(** [s.startswith(p)]. *)
Fixpoint startswith (p s : string) : bool :=
  match p, s with
  | EmptyString, _ => true
  | String a p', String b s' => if ascii_dec a b then startswith p' s' else false
  | String _ _, EmptyString => false
  end.

(** [sub in s]: [sub] occurs in [s] at some offset. *)
Fixpoint contains (sub s : string) : bool :=
  startswith sub s ||
  match s with
  | EmptyString => false
  | String _ r => contains sub r
  end.

(** [sep.join(parts)]. *)
Fixpoint join (sep : string) (parts : list string) : string :=
  match parts with
  | [] => ""
  | [p] => p
  | p :: rest => p +:+ sep +:+ join sep rest
  end.

(** [str(n).rjust(width, '0')] on the decimal digits of a natural number:
    the zero padding of [%02d], [%04d] and [%06d]. *)
Definition zfill (width : nat) (n : nat) : string :=
  let digits := pretty n in
  String.concat "" (replicate (width - String.length digits) "0") +:+ digits.

End Str.

(** ** Query contract validator *)

Definition required_columns : list string :=
  [ "sf_vehicle_name"; "ajans_vehicle_id"; "published_at"; "car_make";
    "car_model"; "car_year"; "kilometrage" ].

(** [validate_query_columns(query)]: the loop appends to [missing_columns]
    each required column whose lower-cased name is not [in] the lower-cased
    query; the result is [(is_valid, missing_columns)]. *)
Definition validate_query_columns (query : string) : bool * list string :=
  let query_lower := Str.lower query in
  let missing_columns :=
    fold_left
      (fun missing column =>
         if negb (Str.contains (Str.lower column) query_lower)
         then missing ++ [column] else missing)
      required_columns [] in
  (Nat.eqb (length missing_columns) 0, missing_columns).

(** ** Dynamically typed values *)

Record date := { d_year : nat; d_month : nat; d_day : nat }.

Record datetime := {
  dt_date : date;
  dt_hour : nat; dt_minute : nat; dt_second : nat; dt_microsecond : nat
}.

(** A scalar as pandas hands it over in a cell, or as a JSON leaf:
    [None] (which also stands for the null markers [pd.NA] and [NaT]), a
    [bool], an [int], a [float] (an IEEE value, NaN and the infinities
    included), a [str] or a [datetime.date]. *)
Inductive atom :=
| ANone
| ABool (b : bool)
| AInt (z : Z)
| AFloat (f : spec_float)
| AStr (s : string)
| ADate (d : date).

(** What [response.json()] may return. *)
#[warnings="-register-all"]
Inductive json :=
| JAtom (a : atom)
| JArr (l : list json)
| JObj (d : gmap string json).

(** The exception classes the program can meet (all below [Exception]). *)
Inductive exn :=
| Timeout | ConnectionError | RequestException | JSONDecodeError
| AttributeError | KeyError | ValueError | TypeError | OverflowError
| OtherError.

(** [isinstance(e, requests.exceptions.RequestException)]. *)
Definition is_RequestException (e : exn) : bool :=
  match e with
  | Timeout | ConnectionError | RequestException | JSONDecodeError => true
  | _ => false
  end.

(** [isinstance(e, requests.exceptions.Timeout)]. *)
Definition is_Timeout (e : exn) : bool :=
  match e with Timeout => true | _ => false end.

Inductive result (A : Type) :=
| Ok (a : A)
| Raise (e : exn).
Arguments Ok {A} a.
Arguments Raise {A} e.

Definition bind_r {A B} (c : result A) (k : A -> result B) : result B :=
  match c with Ok a => k a | Raise e => Raise e end.

Notation "x <~ c ;; k" := (bind_r c (fun x => k))
  (at level 100, c at next level, right associativity).

(** [[f(x) for x in l]] where [f] may raise. *)
Fixpoint map_r {A B} (f : A -> result B) (l : list A) : result (list B) :=
  match l with
  | [] => Ok []
  | x :: rest => y <~ f x ;; ys <~ map_r f rest ;; Ok (y :: ys)
  end.

(** [bool(a)]. *)
Definition atom_truthy (a : atom) : bool :=
  match a with
  | ANone => false
  | ABool b => b
  | AInt z => negb (z =? 0)%Z
  | AFloat (S754_zero _) => false
  | AFloat _ => true
  | AStr s => negb (String.eqb s "")
  | ADate _ => true
  end.

(** [bool(v)]. *)
Definition truthy (v : json) : bool :=
  match v with
  | JAtom a => atom_truthy a
  | JArr l => negb (Nat.eqb (length l) 0)
  | JObj d => negb (Nat.eqb (size d) 0)
  end.

(** [a or b]. *)
Definition py_or (a b : json) : json := if truthy a then a else b.

(** [d.get(k)]. *)
Definition dict_get (d : gmap string json) (k : string) : json :=
  default (JAtom ANone) (d !! k).

(** [a == s] for a string literal [s]. *)
Definition atom_eq_str (a : atom) (s : string) : bool :=
  match a with AStr t => String.eqb t s | _ => false end.

(** [pd.isna(a)] on a scalar cell. *)
Definition pd_isna (a : atom) : bool :=
  match a with
  | ANone => true
  | AFloat S754_nan => true
  | _ => false
  end.

(** The integer part of a finite float, rounding toward zero. *)
Definition float_trunc (s : bool) (m : positive) (e : Z) : Z :=
  let t := Z.shiftl (Z.pos m) e in if s then (- t)%Z else t.

(** Digits with a comma before every group of three: the [,] option of the
    format mini-language on the decimal digits of a non-negative integer. *)
Fixpoint group_digits (digits : string) : string :=
  match digits with
  | EmptyString => EmptyString
  | String c r =>
      let n := String.length r in
      if (0 <? n)%nat && (n mod 3 =? 0)%nat
      then String c ("," +:+ group_digits r)
      else String c (group_digits r)
  end.

(** [format(z, ',')]. *)
Definition format_int_grouped (z : Z) : string :=
  match z with
  | Z0 => "0"
  | Zpos p => group_digits (pretty p)
  | Zneg p => "-" +:+ group_digits (pretty p)
  end.

(** [d.isoformat()]. *)
Definition date_isoformat (d : date) : string :=
  Str.zfill 4 (d_year d) +:+ "-" +:+ Str.zfill 2 (d_month d) +:+ "-" +:+
  Str.zfill 2 (d_day d).

(** [t.strftime("%Y%m%d")], for the four-digit years of a wall clock. *)
Definition strftime_Ymd (t : datetime) : string :=
  Str.zfill 4 (d_year (dt_date t)) +:+ Str.zfill 2 (d_month (dt_date t)) +:+
  Str.zfill 2 (d_day (dt_date t)).

(** [t.isoformat()]: the microseconds are printed only when non-zero. *)
Definition isoformat (t : datetime) : string :=
  date_isoformat (dt_date t) +:+ "T" +:+ Str.zfill 2 (dt_hour t) +:+ ":" +:+
  Str.zfill 2 (dt_minute t) +:+ ":" +:+ Str.zfill 2 (dt_second t) +:+
  (if Nat.eqb (dt_microsecond t) 0 then ""
   else "." +:+ Str.zfill 6 (dt_microsecond t)).

(** ** Records of the pipeline *)

(** The dictionary [car_data] built for one warehouse row. *)
Record car := {
  sf_vehicle_name : atom;
  ajans_vehicle_id : atom;
  make : atom;
  model : atom;
  year : atom;
  kilometers : atom;
  published_at : atom
}.

(** The dictionary [post_data] appended to [posts]. *)
Record post := {
  post_car_id : atom;
  post_ajans_vehicle_id : atom;
  post_make : atom;
  post_model : atom;
  post_year : atom;
  post_kilometers : atom;
  post_tracking_link : json;
  post_content : string;
  post_generated_at : string
}.

(** The JSON body of the tracking-link request. *)
Record link_payload := {
  link_name : string;
  final_link : string;
  sender_id : string;
  domain : string;
  deeplink : bool
}.

(** A value stored in the flat webhook payload. *)
Inductive payload_value :=
| PvInt (n : nat)
| PvStr (s : string)
| PvPost (p : post).

Inductive body :=
| LinkBody (p : link_payload)
| WebhookBody (p : gmap string payload_value).

(** One call of [requests.post]. *)
Record request := {
  req_url : string;
  req_json : body;
  req_headers : list (string * string);
  req_timeout : Z
}.

(** What the program reads of a [requests.Response]; [resp_json] is
    [None] when the body is not a JSON document. *)
Record response := {
  status_code : Z;
  text : string;
  resp_json : option json
}.

(** ** The outside world and the effect monad *)

Inductive level := Info | Success | Warning | Error.

Record world := {
  clock : nat -> datetime;   (* successive readings of [datetime.now()] *)
  ticks : nat;               (* readings taken so far *)
  network : list request -> result response;
                             (* outcome of [requests.post], given all the
                                requests sent so far, newest first *)
  sent : list request;       (* requests sent so far, newest first *)
  executed : list string;    (* warehouse queries run so far, newest first *)
  page : list (level * string) (* reports shown so far, newest first *)
}.

Definition M (A : Type) : Type := world -> result A * world.

Definition ret {A} (a : A) : M A := fun w => (Ok a, w).

Definition raise {A} (e : exn) : M A := fun w => (Raise e, w).

Definition bind {A B} (c : M A) (k : A -> M B) : M B :=
  fun w => match c w with
           | (Ok a, w') => k a w'
           | (Raise e, w') => (Raise e, w')
           end.

(** [try: c  except Exception as e: h e]. *)
Definition try_except {A} (c : M A) (h : exn -> M A) : M A :=
  fun w => match c w with
           | (Ok a, w') => (Ok a, w')
           | (Raise e, w') => h e w'
           end.

Definition lift {A} (r : result A) : M A := fun w => (r, w).

Notation "x <- c ;; k" := (bind c (fun x => k))
  (at level 100, c at next level, right associativity).
Notation "c ;;; k" := (bind c (fun _ => k))
  (at level 100, right associativity).

(** The four ways in which the program changes the world. *)
Definition tick (w : world) : world :=
  {| clock := clock w; ticks := S (ticks w); network := network w;
     sent := sent w; executed := executed w; page := page w |}.

Definition push_request (r : request) (w : world) : world :=
  {| clock := clock w; ticks := ticks w; network := network w;
     sent := r :: sent w; executed := executed w; page := page w |}.

Definition log_query (q : string) (w : world) : world :=
  {| clock := clock w; ticks := ticks w; network := network w;
     sent := sent w; executed := q :: executed w; page := page w |}.

Definition show (l : level) (msg : string) (w : world) : world :=
  {| clock := clock w; ticks := ticks w; network := network w;
     sent := sent w; executed := executed w; page := (l, msg) :: page w |}.

(** [datetime.now()]. *)
Definition datetime_now : M datetime :=
  fun w => (Ok (clock w (ticks w)), tick w).

(** [requests.post(url, json=..., headers=..., timeout=...)]. *)
Definition requests_post (r : request) : M response :=
  fun w => (network w (r :: sent w), push_request r w).

(** [st.info], [st.success], [st.warning], [st.error]. *)
Definition st_show (l : level) (msg : string) : M unit :=
  fun w => (Ok tt, show l msg w).

(** A warehouse result: the rows of the dataframe, each a mapping from
    column name to cell. *)
Definition dataframe : Type := list (gmap string atom).

(** The BigQuery client: what [client.query(q).to_dataframe()] yields. *)
Definition bq_client : Type := string -> result dataframe.

Definition run_query (client : bq_client) (q : string) : M dataframe :=
  fun w => (client q, log_query q w).

(** The state of a [FlashSalePostGenerator]: [self.client]. *)
Record generator := { client : option bq_client }.

(** ** The generator *)

Section Generator.

Set Default Proof Using "Type".

(** Renderings that belong to the Python runtime and on which no branch of
    the program depends: [str(f)] and [format(f, ',')] of a float,
    [str(v)] of a JSON array or object, and [int(s)] of a string
    ([None] when it raises [ValueError]). *)
Variable float_str : spec_float -> string.
Variable float_grouped : spec_float -> string.
Variable container_str : json -> string.
Variable str_to_int : string -> option Z.

(** [str(a)], which is also [format(a, '')]. *)
Definition str_atom (a : atom) : string :=
  match a with
  | ANone => "None"
  | ABool true => "True"
  | ABool false => "False"
  | AInt z => pretty z
  | AFloat f => float_str f
  | AStr s => s
  | ADate d => date_isoformat d
  end.

(** [str(v)]. *)
Definition py_str (v : json) : string :=
  match v with
  | JAtom a => str_atom a
  | _ => container_str v
  end.

(** [int(a)]. *)
Definition py_int (a : atom) : result Z :=
  match a with
  | AInt z => Ok z
  | ABool b => Ok (if b then 1 else 0)%Z
  | AFloat (S754_zero _) => Ok 0%Z
  | AFloat (S754_finite s m e) => Ok (float_trunc s m e)
  | AFloat (S754_infinity _) => Raise OverflowError
  | AFloat S754_nan => Raise ValueError
  | AStr s => match str_to_int s with Some z => Ok z | None => Raise ValueError end
  | ANone => Raise TypeError
  | ADate _ => Raise TypeError
  end.

(** [format(a, ',')], the conversion behind [{kilometers:,}]. *)
Definition format_grouped (a : atom) : result string :=
  match a with
  | AInt z => Ok (format_int_grouped z)
  | ABool b => Ok (if b then "1" else "0")
  | AFloat f => Ok (float_grouped f)
  | AStr _ => Raise ValueError
  | ANone => Raise TypeError
  | ADate _ => Ok ","
  end.

Definition nl : string := String (ascii_of_nat 10) EmptyString.
Definition dquote : string := String (ascii_of_nat 34) EmptyString.

Definition WEBHOOK_ENDPOINT : string :=
  "https://anasalaa.app.n8n.cloud/webhook/6443b1e8-366d-4065-b2e0-73dceab9b820".

(** [POST_TEMPLATE.format(make=..., model=..., year=..., kilometers=...,
    tracking_link=...)]. *)
Definition format_post_template
    (make model year kilometers : atom) (tracking_link : json) : result string :=
  km <~ format_grouped kilometers ;;
  Ok ("🚗 " +:+ str_atom make +:+ " " +:+ str_atom model +:+ " - " +:+
      str_atom year +:+ " - " +:+ km +:+ " كم" +:+ nl +:+
      "دلوقتي نزلت على التطبيق بسعر خاص لمدة 36 ساعة بس!" +:+ nl +:+
      "📋 التقرير المفصل متوفر على التطبيق." +:+ nl +:+
      "📲 شوفها هنا: " +:+ py_str tracking_link).

(** *** Warehouse rows *)

(** [row[col]]. *)
Definition row_get (row : gmap string atom) (col : string) : result atom :=
  match row !! col with
  | Some v => Ok v
  | None => Raise KeyError
  end.

(** [v if not pd.isna(v) else 'Unknown']. *)
Definition or_unknown (v : atom) : atom :=
  if negb (pd_isna v) then v else AStr "Unknown".

(** [int(v) if not pd.isna(v) else 0]. *)
Definition int_or_zero (v : atom) : result atom :=
  if negb (pd_isna v) then z <~ py_int v ;; Ok (AInt z) else Ok (AInt 0).

(** The dictionary display that builds [car_data] from one row. *)
Definition normalize_row (row : gmap string atom) : result car :=
  name <~ row_get row "sf_vehicle_name" ;;
  vid <~ row_get row "ajans_vehicle_id" ;;
  mk <~ row_get row "car_make" ;;
  md <~ row_get row "car_model" ;;
  yr <~ row_get row "car_year" ;;
  y <~ int_or_zero yr ;;
  km <~ row_get row "kilometrage" ;;
  k <~ int_or_zero km ;;
  pub <~ row_get row "published_at" ;;
  Ok {| sf_vehicle_name := name;
        ajans_vehicle_id := vid;
        make := or_unknown mk;
        model := or_unknown md;
        year := y;
        kilometers := k;
        published_at := pub |}.

Definition DEFAULT_QUERY : string :=
  nl +:+
  "                    SELECT DISTINCT a.car_name as sf_vehicle_name," +:+ nl +:+
  "                    a.vehicle_id as ajans_vehicle_id," +:+ nl +:+
  "                    DATE(a.log_date) AS published_at," +:+ nl +:+
  "                    b.car_make," +:+ nl +:+
  "                    b.car_model," +:+ nl +:+
  "                    b.car_year," +:+ nl +:+
  "                    b.kilometrage" +:+ nl +:+
  "    FROM ajans_dealers.wholesale_vehicle_activity_logs a " +:+ nl +:+
  "    LEFT JOIN reporting.vehicle_acquisition_to_selling b ON a.car_name = b.car_name" +:+ nl +:+
  "    WHERE DATE(log_date) = current_date() AND status_before = " +:+ dquote +:+
  "created" +:+ dquote +:+ " AND status_after = " +:+ dquote +:+ "published" +:+
  dquote +:+ nl +:+
  "            ".

(** The [try] block of [get_flash_sale_cars]: run the query, return [[]]
    on an empty dataframe, otherwise normalise every row; any exception
    ends in [[]]. *)
Definition fetch_cars (cl : bq_client) (query : string) : M (list car) :=
  try_except
    (result <- run_query cl query ;;
     match result with
     | [] => ret []
     | _ => lift (map_r normalize_row result)
     end)
    (fun _ => ret []).

(** [bool(custom_query)] for an optional string. *)
Definition supplied (custom_query : option string) : bool :=
  match custom_query with
  | Some q => negb (String.eqb q "")
  | None => false
  end.

Definition get_flash_sale_cars (self : generator) (custom_query : option string)
  : M (list car) :=
  match client self with
  | None => ret []
  | Some cl =>
      match custom_query with
      | Some q =>
          if negb (String.eqb q "") then
            let (is_valid, missing_columns) := validate_query_columns q in
            if negb is_valid then
              st_show Error ("❌ Custom query is missing required columns: " +:+ Str.join ", " missing_columns) ;;;
              st_show Error "Please ensure your query returns all required columns with exact names." ;;;
              ret []
            else fetch_cars cl q
          else fetch_cars cl DEFAULT_QUERY
      | None => fetch_cars cl DEFAULT_QUERY
      end
  end.

(** *** Tracking-link client *)

Definition FALLBACK_LINK : json := JAtom (AStr "elajans.link").

(** The link name, endpoint and payload that [create_tracking_link]
    prepares before it enters its [try] block. *)
Definition link_request (now : datetime) (vehicle_name ajans_vehicle_id : atom)
  : request :=
  let current_date := strftime_Ymd now in
  let link_name := "flashsale-" +:+ current_date +:+ "-" +:+ str_atom vehicle_name in
  let url := "https://hi.nonito.xyz/create_tracking_link" in
  let payload :=
    {| link_name := link_name;
       final_link := "sylndr://car-details/" +:+ str_atom ajans_vehicle_id;
       sender_id := "6eb7c941-13b9-4eb3-8402-5310e2bc0f8e";
       domain := "elajans.link";
       deeplink := true |} in
  {| req_url := url; req_json := LinkBody payload;
     req_headers := []; req_timeout := 30 |}.

(** [response.json()]. *)
Definition response_json (r : response) : M json :=
  match resp_json r with
  | Some v => ret v
  | None => raise JSONDecodeError
  end.

Definition create_tracking_link (vehicle_name ajans_vehicle_id : atom) : M json :=
  now <- datetime_now ;;
  try_except
    (response <- requests_post (link_request now vehicle_name ajans_vehicle_id) ;;
     if (status_code response =? 200)%Z then
       response_data <- response_json response ;;
       match response_data with
       | JObj d =>
           let tracking_link :=
             py_or (py_or (dict_get d "tracking_link") (dict_get d "link"))
                   (dict_get d "url") in
           if truthy tracking_link then ret tracking_link
           else ret FALLBACK_LINK
       | _ => raise AttributeError
       end
     else ret FALLBACK_LINK)
    (fun e => if is_RequestException e then ret FALLBACK_LINK
              else ret FALLBACK_LINK).

(** *** Post renderer *)

Definition generate_post_content (car_data : car) (tracking_link : json) : M string :=
  try_except
    (lift (format_post_template (make car_data) (model car_data) (year car_data)
                                (kilometers car_data) tracking_link))
    (fun _ =>
       ret ("🔥 Flash Sale! " +:+ str_atom (make car_data) +:+ " " +:+
            str_atom (model car_data) +:+ " " +:+ str_atom (year car_data) +:+
            " - " +:+ py_str tracking_link)).

(** *** Orchestrator *)

(** The three accumulators of the loop in [generate_posts]. *)
Record tally := {
  posts : list post;
  successful_posts : nat;
  failed_posts : nat
}.

Definition count_failure (acc : tally) : tally :=
  {| posts := posts acc;
     successful_posts := successful_posts acc;
     failed_posts := S (failed_posts acc) |}.

(** One iteration of [for car_data in flash_sale_cars]. *)
Definition process_car (car_data : car) (acc : tally) : M tally :=
  let vehicle_name := sf_vehicle_name car_data in
  try_except
    (if atom_eq_str (make car_data) "Unknown" || atom_eq_str (model car_data) "Unknown"
     then ret (count_failure acc)
     else
       let ajans_vehicle_id := ajans_vehicle_id car_data in
       if negb (atom_truthy ajans_vehicle_id) then ret (count_failure acc)
       else
         tracking_link <- create_tracking_link vehicle_name ajans_vehicle_id ;;
         content <- generate_post_content car_data tracking_link ;;
         now <- datetime_now ;;
         let post_data :=
           {| post_car_id := vehicle_name;
              post_ajans_vehicle_id := ajans_vehicle_id;
              post_make := make car_data;
              post_model := model car_data;
              post_year := year car_data;
              post_kilometers := kilometers car_data;
              post_tracking_link := tracking_link;
              post_content := content;
              post_generated_at := isoformat now |} in
         ret {| posts := posts acc ++ [post_data];
                successful_posts := S (successful_posts acc);
                failed_posts := failed_posts acc |})
    (fun _ => ret (count_failure acc)).

Fixpoint process_cars (cars : list car) (acc : tally) : M tally :=
  match cars with
  | [] => ret acc
  | car_data :: rest => acc' <- process_car car_data acc ;; process_cars rest acc'
  end.

Definition generate_posts (self : generator) (custom_query : option string)
  : M (list post) :=
  flash_sale_cars <- get_flash_sale_cars self custom_query ;;
  match flash_sale_cars with
  | [] => ret []
  | _ =>
      acc <- process_cars flash_sale_cars
               {| posts := []; successful_posts := 0; failed_posts := 0 |} ;;
      st_show Info ("🚗 Total flash sale cars found: " +:+ pretty (length flash_sale_cars)) ;;;
      st_show Info ("✅ Posts generated successfully: " +:+ pretty (successful_posts acc)) ;;;
      st_show Info ("❌ Posts failed: " +:+ pretty (failed_posts acc)) ;;;
      ret (posts acc)
  end.

(** *** Webhook dispatcher *)

(** [f"post_{i + 1}"]. *)
Definition post_key (i : nat) : string := "post_" +:+ pretty (i + 1).

(** [for i, post in enumerate(posts): payload[post_key] = post], with the
    enumeration resumed at index [i]. *)
Fixpoint add_posts (i : nat) (posts : list post)
    (payload : gmap string payload_value) : gmap string payload_value :=
  match posts with
  | [] => payload
  | post :: rest => add_posts (S i) rest (<[post_key i := PvPost post]> payload)
  end.

(** The block under [# Add metadata]. *)
Definition add_metadata (total_count : nat) (generated_at : string)
    (payload : gmap string payload_value) : gmap string payload_value :=
  let payload := <["total_count" := PvInt total_count]> payload in
  let payload := <["generated_at" := PvStr generated_at]> payload in
  let payload := <["source" := PvStr "flash_sale_posts_generator"]> payload in
  payload.

Definition build_payload (posts : list post) (generated_at : string)
  : gmap string payload_value :=
  let payload := ∅ in
  let payload := add_metadata (length posts) generated_at payload in
  add_posts 0 posts payload.

(** The single request of [send_posts_to_webhook]. *)
Definition webhook_request (payload : gmap string payload_value) : request :=
  {| req_url := WEBHOOK_ENDPOINT;
     req_json := WebhookBody payload;
     req_headers := [("Content-Type", "application/json");
                     ("User-Agent", "FlashSalePostGenerator/1.0")];
     req_timeout := 30 |}.

Definition send_posts_to_webhook (posts : list post) : M bool :=
  match posts with
  | [] => ret false
  | _ =>
      now <- datetime_now ;;
      let payload := build_payload posts (isoformat now) in
      try_except
        (response <- requests_post (webhook_request payload) ;;
         if existsb (Z.eqb (status_code response)) [200; 201; 202]%Z
         then ret true
         else ret false)
        (fun e => if is_Timeout e then ret false
                  else if is_RequestException e then ret false
                  else ret false)
  end.

(** *** Vocabulary of the statements *)

(** The value is a Python [str]. *)
Definition is_str (v : json) : Prop := exists s, v = JAtom (AStr s).

(** Every value of the object that the three-key lookup could select (a
    truthy value under [tracking_link], [link] or [url]) is a string. *)
Definition link_values_are_strings (d : gmap string json) : Prop :=
  forall k x,
    In k ["tracking_link"; "link"; "url"] ->
    d !! k = Some x -> truthy x = true -> is_str x.

(** The outcome of the tracking-link request in world [w]: what the
    network answers to the request prepared at the current clock reading. *)
Definition link_outcome (vehicle_name ajans_vehicle_id : atom) (w : world)
  : result response :=
  network w (link_request (clock w (ticks w)) vehicle_name ajans_vehicle_id :: sent w).

(** The world once [create_tracking_link] has run: one clock reading, one
    request. *)
Definition after_link (vehicle_name ajans_vehicle_id : atom) (w : world) : world :=
  push_request (link_request (clock w (ticks w)) vehicle_name ajans_vehicle_id) (tick w).

(** The integer part of the finite float [(-1)^s * m * 2^e], written with
    exact integer arithmetic: a product when the exponent is non-negative,
    otherwise the quotient rounded toward zero. *)
Definition truncate_float (s : bool) (m : positive) (e : Z) : Z :=
  let x := if s then Z.neg m else Z.pos m in
  if (0 <=? e)%Z then (x * 2 ^ e)%Z else Z.quot x (2 ^ (- e)).

(** What normalisation is to store for a year or mileage cell: [0] for a
    null cell, the integer itself, the integer part of a float that is
    zero or finite.  Other cells (strings, booleans, dates, infinities)
    are not covered. *)
Definition expected_int (v : atom) : option Z :=
  match v with
  | ANone => Some 0%Z
  | AFloat S754_nan => Some 0%Z
  | AInt z => Some z
  | AFloat (S754_zero _) => Some 0%Z
  | AFloat (S754_finite s m e) => Some (truncate_float s m e)
  | _ => None
  end.

(** What normalisation is to store for a make or model cell. *)
Definition expected_name (v : atom) : atom :=
  if pd_isna v then AStr "Unknown" else v.

(** The query that [get_flash_sale_cars] is about to run: the caller's
    when one is passed and is not empty, the built-in one otherwise. *)
Definition effective_query (custom_query : option string) : string :=
  match custom_query with
  | Some q => if supplied custom_query then q else DEFAULT_QUERY
  | None => DEFAULT_QUERY
  end.

(** The skip policy of the loop, as one test on a record. *)
Definition skipped (c : car) : bool :=
  atom_eq_str (make c) "Unknown" || atom_eq_str (model c) "Unknown" ||
  negb (atom_truthy (ajans_vehicle_id c)).

(** The records of a batch that pass the skip policy, in batch order. *)
Definition kept (cars : list car) : list car :=
  List.filter (fun c => negb (skipped c)) cars.


(** *** Case-insensitive occurrence *)

(** The byte is one of the capital letters [A] to [Z]. *)
Definition is_upper (a : ascii) : bool :=
  (65 <=? nat_of_ascii a)%nat && (nat_of_ascii a <=? 90)%nat.




(** Agreement up to case in the sense of Unicode case folding, for a name
    in ASCII: beside the capital and the small form of a letter, U+017F
    LATIN SMALL LETTER LONG S stands for the letter s and U+212A KELVIN
    SIGN for the letter k; these are the only two code points outside ASCII
    that case folding maps to an ASCII letter.  [LONG_S] and [KELVIN_SIGN]
    are their UTF-8 encodings. *)
Definition LONG_S : string :=
  String (ascii_of_nat 197) (String (ascii_of_nat 191) "").

Definition KELVIN_SIGN : string :=
  String (ascii_of_nat 226) (String (ascii_of_nat 132) (String (ascii_of_nat 170) "")).



(** The text is made of ASCII characters only. *)
Fixpoint is_ascii (s : string) : bool :=
  match s with
  | EmptyString => true
  | String c r => (N_of_ascii c <? 128)%N && is_ascii r
  end.

(** An auxiliary of the proofs: lower case as it is on ASCII text, where
    the capital letters move 32 places up.  Lemma [lower_ascii] shows that
    [Str.lower] agrees with it on ASCII text. *)
Definition ascii_lower_char (c : ascii) : ascii :=
  if is_upper c then ascii_of_nat (nat_of_ascii c + 32) else c.

Fixpoint ascii_lower (s : string) : string :=
  match s with
  | EmptyString => EmptyString
  | String c r => String (ascii_lower_char c) (ascii_lower r)
  end.

(** The 256 bytes. *)
Definition all_bytes : list ascii := map ascii_of_nat (seq 0 256).

(** *** Decimal notation *)

(** The character of the last decimal digit of [n]. *)
Definition digit (n : N) : ascii := ascii_of_N (48 + n mod 10).

(** The last [w] decimal digits of [n], the most significant first. *)
Fixpoint fixed_digits (w : nat) (n : N) : string :=
  match w with
  | 0 => ""
  | S w' => fixed_digits w' (n / 10) +:+ String (digit n) ""
  end.

(** A date written [YYYYMMDD]. *)
Definition yyyymmdd (d : date) : string :=
  fixed_digits 4 (N.of_nat (d_year d)) +:+
  fixed_digits 2 (N.of_nat (d_month d)) +:+
  fixed_digits 2 (N.of_nat (d_day d)).

(** A date and time written [YYYY-MM-DDTHH:MM:SS], followed by [.ffffff]
    when the microseconds are not zero. *)
Definition iso_timestamp (t : datetime) : string :=
  fixed_digits 4 (N.of_nat (d_year (dt_date t))) +:+ "-" +:+
  fixed_digits 2 (N.of_nat (d_month (dt_date t))) +:+ "-" +:+
  fixed_digits 2 (N.of_nat (d_day (dt_date t))) +:+ "T" +:+
  fixed_digits 2 (N.of_nat (dt_hour t)) +:+ ":" +:+
  fixed_digits 2 (N.of_nat (dt_minute t)) +:+ ":" +:+
  fixed_digits 2 (N.of_nat (dt_second t)) +:+
  (if (N.of_nat (dt_microsecond t) =? 0)%N then ""
   else "." +:+ fixed_digits 6 (N.of_nat (dt_microsecond t))).

(** The fields of a [datetime] object are in their ranges. *)
Definition valid_datetime (t : datetime) : Prop :=
  (1 <= N.of_nat (d_year (dt_date t)) <= 9999)%N /\
  (1 <= N.of_nat (d_month (dt_date t)) <= 12)%N /\
  (1 <= N.of_nat (d_day (dt_date t)) <= 31)%N /\
  (N.of_nat (dt_hour t) < 24)%N /\
  (N.of_nat (dt_minute t) < 60)%N /\
  (N.of_nat (dt_second t) < 60)%N /\
  (N.of_nat (dt_microsecond t) < 1000000)%N.

(** A natural number written in decimal with a comma between its groups
    of three digits: a number below 1000 is written as it is, a larger one
    as the grouped thousands, a comma and the last three digits. *)
Inductive thousands_grouped : N -> string -> Prop :=
| grouped_last n :
    (n < 1000)%N -> thousands_grouped n (pretty n)
| grouped_more n s :
    (1000 <= n)%N ->
    thousands_grouped (n / 1000) s ->
    thousands_grouped n (s +:+ "," +:+ fixed_digits 3 (n mod 1000)).

(** An integer written with grouped thousands, a minus sign first when it
    is negative. *)
Definition grouped_int (z : Z) (s : string) : Prop :=
  match z with
  | Z0 => s = "0"
  | Zpos p => thousands_grouped (Npos p) s
  | Zneg p => exists t, s = "-" +:+ t /\ thousands_grouped (Npos p) t
  end.
(** *** Sample data for the closed examples *)

Definition sample_morning : datetime :=
  {| dt_date := {| d_year := 2025; d_month := 3; d_day := 7 |};
     dt_hour := 9; dt_minute := 5; dt_second := 1; dt_microsecond := 0 |}.

Definition sample_evening : datetime :=
  {| dt_date := {| d_year := 2025; d_month := 3; d_day := 7 |};
     dt_hour := 23; dt_minute := 59; dt_second := 59; dt_microsecond := 250 |}.

(** A network that answers every request with the same status and body. *)
Definition answering (status : Z) (body : option json)
  : list request -> result response :=
  fun _ => Ok {| status_code := status; text := ""; resp_json := body |}.

(** A fresh world: nothing sent, run or shown yet. *)
Definition fresh_world (now : datetime) (net : list request -> result response)
  : world :=
  {| clock := fun _ => now; ticks := 0; network := net;
     sent := []; executed := []; page := [] |}.

(** The row of the end-to-end scenario, with the year cell left open. *)
Definition toyota_row (car_year : atom) : gmap string atom :=
  <["sf_vehicle_name" := AStr "ABC123"]>
  (<["ajans_vehicle_id" := AStr "v1"]>
  (<["published_at" := ADate {| d_year := 2025; d_month := 3; d_day := 7 |}]>
  (<["car_make" := AStr "Toyota"]>
  (<["car_model" := AStr "Corolla"]>
  (<["car_year" := car_year]>
  (<["kilometrage" := AFloat (S754_finite false 100001 (-1))]> ∅)))))).

Definition toyota (vehicle_id make : atom) : car :=
  {| sf_vehicle_name := AStr "ABC123";
     ajans_vehicle_id := vehicle_id;
     make := make;
     model := AStr "Corolla";
     year := AInt 2020;
     kilometers := AInt 50000;
     published_at := ADate {| d_year := 2025; d_month := 3; d_day := 7 |} |}.

(** A warehouse that answers every query with the same rows. *)
Definition warehouse (rows : dataframe) : generator :=
  {| client := Some (fun _ => Ok rows) |}.

(** Runtime renderings for the closed examples, none of which meets a
    float, a container or a numeric string. *)
Definition unused_str {A : Type} (_ : A) : string := "".
Definition unused_int (_ : string) : option Z := None.




(** A query in plain ASCII that names the seven columns. *)
Definition plain_query : string :=
  "SELECT sf_vehicle_name, ajans_vehicle_id, published_at, car_make, car_model, car_year, kilometrage FROM cars".

(** The record of the end-to-end scenario, with the mileage left open. *)
Definition corolla (kilometers : atom) : car :=
  {| sf_vehicle_name := AStr "ABC123";
     ajans_vehicle_id := AStr "v1";
     make := AStr "Toyota";
     model := AStr "Corolla";
     year := AInt 2020;
     kilometers := kilometers;
     published_at := ADate {| d_year := 2025; d_month := 3; d_day := 7 |} |}.

(** A post ready for delivery. *)
Definition sample_post : post :=
  {| post_car_id := AStr "ABC123";
     post_ajans_vehicle_id := AStr "v1";
     post_make := AStr "Toyota";
     post_model := AStr "Corolla";
     post_year := AInt 2020;
     post_kilometers := AInt 50000;
     post_tracking_link := JAtom (AStr "https://t.co/1");
     post_content := "Toyota Corolla";
     post_generated_at := "2025-03-07T09:05:01" |}.
(** ** Start-up and the whole run *)

(** A service-account credential, whichever source it was loaded from. *)
Inductive credentials := ServiceAccount (info : string).

(** An exception met while the generator is constructed, with its
    message [str(e)]: the two classes that [get_credentials] catches, and
    any other exception. *)
Inductive startup_exn :=
| SKeyError (msg : string)
| SFileNotFoundError (msg : string)
| SException (msg : string).

(** [str(e)]. *)
Definition startup_str (e : startup_exn) : string :=
  match e with
  | SKeyError msg => msg
  | SFileNotFoundError msg => msg
  | SException msg => msg
  end.

(** What the process finds around it when a run starts. *)
Record host := {
  (* [st.session_state.get('custom_query', None)] *)
  session_custom_query : option string;
  (* [Credentials.from_service_account_info(st.secrets["service_account"])] *)
  secrets_credentials : startup_exn + credentials;
  (* [Credentials.from_service_account_file('service_account.json')] *)
  file_credentials : startup_exn + credentials;
  (* [bigquery.Client(credentials=credentials)] *)
  new_client : credentials -> startup_exn + bq_client
}.

(** [get_credentials]: the secrets first; on [KeyError] or
    [FileNotFoundError] the file; on [FileNotFoundError] there, [None].
    Any other exception propagates. *)
Definition get_credentials (h : host) : startup_exn + option credentials :=
  match secrets_credentials h with
  | inr credentials => inr (Some credentials)
  | inl (SKeyError _) | inl (SFileNotFoundError _) =>
      match file_credentials h with
      | inr credentials => inr (Some credentials)
      | inl (SFileNotFoundError _) => inr None
      | inl e => inl e
      end
  | inl e => inl e
  end.

(** [_get_bigquery_client]: [None] without credentials or when the client
    cannot be created. *)
Definition _get_bigquery_client (h : host) : startup_exn + option bq_client :=
  match get_credentials h with
  | inl e => inl e
  | inr None => inr None
  | inr (Some credentials) =>
      match new_client h credentials with
      | inr client => inr (Some client)
      | inl _ => inr None
      end
  end.

(** [FlashSalePostGenerator()]: [__init__] raises when no client could be
    obtained. *)
Definition init (h : host) : startup_exn + generator :=
  match _get_bigquery_client h with
  | inl e => inl e
  | inr None => inl (SException "BigQuery client initialization failed")
  | inr (Some cl) => inr {| client := Some cl |}
  end.

(** The dictionary returned by [run_flash_sale_generation]; [error] is
    the key that only the failure dictionary has. *)
Record run_result := {
  success : bool;
  result_posts : list post;
  webhook_success : bool;
  total_posts : nat;
  error : option string
}.

(** [str(e)] of an exception met after start-up. *)
Variable exn_str : exn -> string.

Definition failure (msg : string) : run_result :=
  {| success := false; result_posts := []; webhook_success := false;
     total_posts := 0; error := Some msg |}.

Definition run_flash_sale_generation (h : host) : M run_result :=
  let custom_query := session_custom_query h in
  match init h with
  | inl e => ret (failure (startup_str e))
  | inr generator =>
      try_except
        (posts <- generate_posts generator custom_query ;;
         match posts with
         | [] =>
             ret {| success := true; result_posts := [];
                    webhook_success := false; total_posts := 0; error := None |}
         | _ =>
             delivered <- send_posts_to_webhook posts ;;
             ret {| success := true; result_posts := posts;
                    webhook_success := delivered;
                    total_posts := length posts; error := None |}
         end)
        (fun e => ret (failure (exn_str e)))
  end.

(** *** Further vocabulary *)

(** [s.replace(',', '')]. *)
Fixpoint remove_commas (s : string) : string :=
  match s with
  | EmptyString => EmptyString
  | String c r =>
      if ascii_dec c "," then remove_commas r else String c (remove_commas r)
  end.

(** A date the calendar can show: a four-digit year, a month and a day of
    at most two digits. *)
Definition calendar_date (d : date) : Prop :=
  (1000 <= Z.of_nat (d_year d) <= 9999)%Z /\ d_month d <= 99 /\ d_day d <= 99.

(** The post assembled for a record: the record's fields copied, a
    tracking link that is never empty, and the text rendered from the
    record and that link. *)
Definition post_of (c : car) (p : post) : Prop :=
  post_car_id p = sf_vehicle_name c /\
  post_ajans_vehicle_id p = ajans_vehicle_id c /\
  post_make p = make c /\
  post_model p = model c /\
  post_year p = year c /\
  post_kilometers p = kilometers c /\
  truthy (post_tracking_link p) = true /\
  forall w, generate_post_content c (post_tracking_link p) w = (Ok (post_content p), w).

(** The link name that a request asks for, when it is a link request. *)
Definition request_link_name (r : request) : option string :=
  match req_json r with
  | LinkBody p => Some (link_name p)
  | WebhookBody _ => None
  end.

(** The request goes to the link service. *)
Definition is_link_request (r : request) : Prop :=
  req_url r = "https://hi.nonito.xyz/create_tracking_link".

(** A host with the given credentials in its secrets and a client that
    serves the given rows. *)
Definition sample_host (custom_query : option string) (rows : dataframe) : host :=
  {| session_custom_query := custom_query;
     secrets_credentials := inr (ServiceAccount "flash-sale");
     file_credentials := inl (SFileNotFoundError "service_account.json");
     new_client := fun _ => inr (fun _ => Ok rows) |}.

(** *** String lemmas *)

Lemma startswith_app (p s : string) :
  Str.startswith p s = true <-> exists t, s = p +:+ t.
Proof.
  revert s; induction p as [|a p IH]; intros s; simpl.
  - split; eauto.
  - destruct s as [|b s].
    + split; [discriminate | intros [t Ht]; discriminate].
    + destruct (ascii_dec a b) as [->|Hne].
      * rewrite IH. split; intros [t Ht]; exists t.
        -- simpl. now rewrite Ht.
        -- now injection Ht.
      * split; [discriminate | intros [t Ht]; injection Ht; congruence].
Qed.

Lemma contains_app (sub s : string) :
  Str.contains sub s = true <-> exists pre post, s = pre +:+ sub +:+ post.
Proof.
  induction s as [|c s IH]; simpl.
  - rewrite orb_false_r, startswith_app. split.
    + intros [t Ht]. exists "", t. exact Ht.
    + intros [pre [post H]]. destruct pre; simpl in H; [eauto | discriminate].
  - rewrite orb_true_iff, IH, startswith_app. split.
    + intros [[t Ht] | [pre [post H]]].
      * exists "", t. exact Ht.
      * exists (String c pre), post. now rewrite H.
    + intros [pre [post H]]. destruct pre as [|c' pre]; simpl in H.
      * left. now exists post.
      * right. exists pre, post. now injection H.
Qed.

Lemma contains_middle (a x b : string) : Str.contains x (a +:+ x +:+ b) = true.
Proof. apply contains_app. now exists a, b. Qed.

Lemma app_empty_str (x : string) : x +:+ "" = x.
Proof.
  induction x as [|c x IH]; [reflexivity|].
  change (String c (x +:+ "") = String c x). now rewrite IH.
Qed.

Lemma app_assoc_str (a b c : string) : (a +:+ b) +:+ c = a +:+ (b +:+ c).
Proof.
  induction a as [|x a IH]; [reflexivity|].
  change (String x ((a +:+ b) +:+ c) = String x (a +:+ b +:+ c)). now rewrite IH.
Qed.

Lemma app_inj_length (a a' b b' : string) :
  String.length a = String.length a' ->
  a +:+ b = a' +:+ b' -> a = a' /\ b = b'.
Proof.
  revert a'; induction a as [|c a IH]; intros [|c' a'] Hlen H;
    try discriminate.
  - now split.
  - change (String c (a +:+ b) = String c' (a' +:+ b')) in H.
    injection H as -> H. injection Hlen as Hlen.
    destruct (IH a' Hlen H) as [-> ->]. now split.
Qed.

Lemma length_app_str (a b : string) :
  String.length (a +:+ b) = String.length a + String.length b.
Proof.
  induction a as [|c a IH]; [reflexivity|].
  change (S (String.length (a +:+ b)) = S (String.length a + String.length b)).
  now rewrite IH.
Qed.

Lemma ascii_lower_app (a b : string) :
  ascii_lower (a +:+ b) = ascii_lower a +:+ ascii_lower b.
Proof. induction a as [|c a IH]; simpl; [reflexivity | now rewrite IH]. Qed.


Lemma all_bytes_complete (a : ascii) : In a all_bytes.
Proof.
  rewrite <- (ascii_nat_embedding a). apply in_map, in_seq.
  pose proof (nat_ascii_bounded a). lia.
Qed.





(** On ASCII text [str.lower] is the ASCII lower case: no ASCII code point
    is the capital sigma, each has a one-character lower case, which is
    again one byte. *)
Lemma ascii_byte_check :
  forallb (fun b =>
     negb (N_of_ascii b <? 128)%N ||
     (negb (N_of_ascii b =? 931)%N &&
      bool_decide (Unicode.to_lower_full (N_of_ascii b)
                   = [N_of_ascii (ascii_lower_char b)]) &&
      bool_decide (Unicode.encode_point (N_of_ascii (ascii_lower_char b))
                   = String (ascii_lower_char b) "")))
    all_bytes = true.
Proof. vm_compute. reflexivity. Qed.

Lemma ascii_byte_lower (b : ascii) :
  (N_of_ascii b <? 128)%N = true ->
  (N_of_ascii b =? 931)%N = false /\
  Unicode.to_lower_full (N_of_ascii b) = [N_of_ascii (ascii_lower_char b)] /\
  Unicode.encode_point (N_of_ascii (ascii_lower_char b))
  = String (ascii_lower_char b) "".
Proof.
  intros Hb. pose proof ascii_byte_check as H. rewrite forallb_forall in H.
  specialize (H b (all_bytes_complete b)). rewrite Hb in H. cbn [negb orb] in H.
  apply andb_true_iff in H as [H H3]. apply andb_true_iff in H as [H1 H2].
  apply negb_true_iff in H1. apply bool_decide_eq_true in H2, H3. auto.
Qed.

Lemma decode_ascii_cons (b : ascii) (r : string) :
  (N_of_ascii b <? 128)%N = true ->
  Unicode.decode (String b r) = N_of_ascii b :: Unicode.decode r.
Proof. intros H. cbn [Unicode.decode]. cbv zeta. now rewrite H. Qed.

Lemma do_lower_ascii (s : string) :
  is_ascii s = true ->
  forall before,
    Unicode.encode (Unicode.do_lower before (Unicode.decode s)) = ascii_lower s.
Proof.
  induction s as [|b r IH]; intros Hs before; [reflexivity|].
  cbn [is_ascii] in Hs. apply andb_true_iff in Hs as [Hb Hr].
  destruct (ascii_byte_lower b Hb) as (H1 & H2 & H3).
  rewrite (decode_ascii_cons b r Hb). cbn [Unicode.do_lower].
  rewrite H1, H2. cbn [app Unicode.encode]. rewrite H3, (IH Hr).
  reflexivity.
Qed.

Lemma lower_ascii (s : string) :
  is_ascii s = true -> Str.lower s = ascii_lower s.
Proof. intros H. apply (do_lower_ascii s H). Qed.

(** The accumulating loop is a filter of the required columns. *)
Lemma append_loop_filter {A} (keep : A -> bool) (l acc : list A) :
  fold_left (fun missing x => if keep x then missing ++ [x] else missing) l acc
  = acc ++ List.filter keep l.
Proof.
  revert acc; induction l as [|x l IH]; intros acc; simpl.
  - now rewrite app_nil_r.
  - rewrite IH. destruct (keep x); simpl; [now rewrite <- app_assoc | reflexivity].
Qed.




(** *** Decimal notation: lemmas *)

Lemma pretty_N_char_digit (x : N) : pretty_N_char (x mod 10) = digit x.
Proof.
  unfold digit. pose proof (N.mod_upper_bound x 10 ltac:(discriminate)) as H.
  destruct (x mod 10)%N as [|p]; [reflexivity|].
  do 9 (destruct p as [p|p|]; try reflexivity; try (exfalso; lia)).
Qed.

Lemma pretty_N_go_app (x : N) (s : string) :
  pretty_N_go x s = pretty_N_go x "" +:+ s.
Proof.
  revert s. induction (N.lt_wf_0 x) as [x _ IH]. intros s.
  destruct (N.eq_dec x 0%N) as [->|Hx].
  - now rewrite !pretty_N_go_0.
  - assert (0 < x)%N as Hpos by lia.
    rewrite (pretty_N_go_step x s Hpos), (pretty_N_go_step x "" Hpos).
    assert (x / 10 < x)%N as Hlt by (apply N.div_lt; lia).
    rewrite (IH _ Hlt (String _ s)), (IH _ Hlt (String _ "")).
    now rewrite app_assoc_str.
Qed.

Lemma pretty_N_small (x : N) :
  (x < 10)%N -> pretty x = String (digit x) "".
Proof.
  intros H. rewrite <- pretty_N_char_digit.
  destruct (N.eq_dec x 0%N) as [->|Hx]; [reflexivity|].
  unfold pretty, pretty_N. destruct (decide (x = 0%N)) as [E|_]; [contradiction|].
  rewrite pretty_N_go_step by lia.
  rewrite (N.div_small x 10 H), pretty_N_go_0. reflexivity.
Qed.

Lemma pretty_N_step (x : N) :
  (10 <= x)%N -> pretty x = pretty (x / 10)%N +:+ String (digit x) "".
Proof.
  intros H. rewrite <- pretty_N_char_digit. unfold pretty, pretty_N.
  assert (0 < x / 10)%N as Hq.
  { apply N.div_str_pos. lia. }
  destruct (decide (x = 0%N)) as [E|_]; [lia|].
  destruct (decide ((x / 10)%N = 0%N)) as [E|_]; [lia|].
  rewrite pretty_N_go_step by lia. apply pretty_N_go_app.
Qed.

Lemma pretty_N_nonempty (x : N) : pretty x <> "".
Proof.
  destruct (N.lt_ge_cases x 10) as [H|H].
  - rewrite (pretty_N_small x H). discriminate.
  - rewrite (pretty_N_step x H). destruct (pretty (x / 10)%N); discriminate.
Qed.

Lemma zeros_S (k : nat) :
  String.concat "" (replicate (S k) "0") = String "0" (String.concat "" (replicate k "0")).
Proof. destruct k; reflexivity. Qed.

Lemma zeros_snoc (k : nat) :
  String.concat "" (replicate k "0") +:+ "0"
  = String "0" (String.concat "" (replicate k "0")).
Proof.
  induction k as [|k IH]; [reflexivity|].
  rewrite zeros_S.
  change (String "0" (String.concat "" (replicate k "0") +:+ "0") = 
          String "0" (String "0" (String.concat "" (replicate k "0")))).
  now rewrite IH.
Qed.

Lemma fixed_digits_0 (k : nat) :
  fixed_digits k 0 = String.concat "" (replicate k "0").
Proof.
  induction k as [|k IH]; [reflexivity|].
  cbn [fixed_digits]. change (0 / 10)%N with 0%N. rewrite IH, zeros_S.
  apply zeros_snoc.
Qed.

Lemma fixed_digits_length (w : nat) (x : N) :
  String.length (fixed_digits w x) = w.
Proof.
  revert x; induction w as [|w IH]; intros x; [reflexivity|].
  cbn [fixed_digits]. rewrite length_app_str, IH. cbn. lia.
Qed.

(** Zero padding to [w] places gives the [w] digits of a number that has
    no more. *)
Lemma zero_padding_fixed (w : nat) (x : N) :
  0 < w -> (x < 10 ^ N.of_nat w)%N ->
  String.concat "" (replicate (w - String.length (pretty x)) "0") +:+ pretty x
  = fixed_digits w x.
Proof.
  revert x; induction w as [|w IH]; intros x Hw Hx; [lia|].
  cbn [fixed_digits].
  destruct (N.lt_ge_cases x 10) as [H|H].
  - rewrite (pretty_N_small x H), (N.div_small x 10 H), fixed_digits_0.
    cbn [String.length]. now replace (S w - 1) with w by lia.
  - assert (0 < w) as Hw'.
    { destruct w; [|lia]. change (10 ^ N.of_nat 1)%N with 10%N in Hx. lia. }
    assert (x / 10 < 10 ^ N.of_nat w)%N as Hq.
    { apply N.Div0.div_lt_upper_bound.
      rewrite Nat2N.inj_succ, N.pow_succ_r' in Hx. exact Hx. }
    rewrite (pretty_N_step x H), length_app_str. cbn [String.length].
    replace (S w - (String.length (pretty (x / 10)%N) + 1))
      with (w - String.length (pretty (x / 10)%N)) by lia.
    now rewrite <- app_assoc_str, (IH _ Hw' Hq).
Qed.

Lemma zfill_fixed (w n : nat) :
  0 < w -> (N.of_nat n < 10 ^ N.of_nat w)%N ->
  Str.zfill w n = fixed_digits w (N.of_nat n).
Proof. intros Hw Hn. exact (zero_padding_fixed w (N.of_nat n) Hw Hn). Qed.

(** [%Y%m%d] writes a date of the calendar as [YYYYMMDD]. *)
Lemma strftime_Ymd_fixed (t : datetime) :
  calendar_date (dt_date t) -> strftime_Ymd t = yyyymmdd (dt_date t).
Proof.
  intros (Hy & Hm & Hd). unfold strftime_Ymd, yyyymmdd.
  rewrite !zfill_fixed; [reflexivity | lia | | lia | | lia |].
  - change (10 ^ N.of_nat 2)%N with 100%N. lia.
  - change (10 ^ N.of_nat 2)%N with 100%N. lia.
  - change (10 ^ N.of_nat 4)%N with 10000%N. lia.
Qed.

(** [isoformat()] writes a date and time as [YYYY-MM-DDTHH:MM:SS[.ffffff]]. *)
Lemma isoformat_fixed (t : datetime) :
  valid_datetime t -> isoformat t = iso_timestamp t.
Proof.
  intros (Hy & Hm & Hd & Hh & Hmi & Hs & Hus).
  unfold isoformat, date_isoformat, iso_timestamp.
  assert (Hmicro :
    (if Nat.eqb (dt_microsecond t) 0 then ""
     else "." +:+ Str.zfill 6 (dt_microsecond t))
    = (if (N.of_nat (dt_microsecond t) =? 0)%N then ""
       else "." +:+ fixed_digits 6 (N.of_nat (dt_microsecond t)))).
  { destruct (dt_microsecond t) as [|us] eqn:E; [reflexivity|].
    rewrite <- E in *. rewrite zfill_fixed; [|lia|].
    - rewrite E. reflexivity.
    - change (10 ^ N.of_nat 6)%N with 1000000%N. exact Hus. }
  rewrite Hmicro, app_assoc_str.
  rewrite !zfill_fixed; [reflexivity |
    try lia; try (change (10 ^ N.of_nat 2)%N with 100%N; lia);
    try (change (10 ^ N.of_nat 4)%N with 10000%N; lia) ..].
Qed.

(** *** Grouping by thousands: lemmas *)

Lemma group_digits_short (s : string) :
  String.length s <= 3 -> group_digits s = s.
Proof.
  intros H.
  destruct s as [|a [|b [|c [|d s]]]]; try reflexivity.
  cbn [String.length] in H. lia.
Qed.

Lemma group_digits_app (s t : string) :
  s <> "" -> String.length t = 3 ->
  group_digits (s +:+ t) = group_digits s +:+ "," +:+ t.
Proof.
  intros Hs Ht. induction s as [|c r IH]; [contradiction|].
  change (String c r +:+ t) with (String c (r +:+ t)).
  cbn [group_digits]. cbv zeta. rewrite length_app_str, Ht.
  destruct r as [|c' r'].
  - change (String.length "") with 0. cbn [Nat.add Nat.ltb Nat.leb Nat.modulo Nat.eqb andb].
    change ("" +:+ t) with t. rewrite (group_digits_short t) by lia.
    reflexivity.
  - assert (IH' := IH ltac:(discriminate)).
    set (n := String.length (String c' r')) in *.
    assert (0 < n) as Hn by (unfold n; cbn [String.length]; lia).
    replace ((n + 3) mod 3) with (n mod 3)
      by (replace (n + 3) with (n + 1 * 3) by lia; now rewrite Nat.Div0.mod_add).
    replace (0 <? n + 3)%nat with true by (symmetry; apply Nat.ltb_lt; lia).
    replace (0 <? n)%nat with true by (symmetry; apply Nat.ltb_lt; lia).
    cbn [andb]. rewrite IH'.
    destruct (n mod 3 =? 0)%nat; reflexivity.
Qed.

Lemma digit_mod (x y : N) : (x mod 10 = y mod 10)%N -> digit x = digit y.
Proof. unfold digit. now intros ->. Qed.

(** The decimal notation of a number from 1000 on is that of its
    thousands followed by its last three digits. *)
Lemma pretty_N_thousands (x : N) :
  (1000 <= x)%N ->
  pretty x = pretty (x / 1000)%N +:+ fixed_digits 3 (x mod 1000).
Proof.
  intros H.
  rewrite (pretty_N_step x) by lia.
  rewrite (pretty_N_step (x / 10)) by (apply N.div_le_lower_bound; lia).
  rewrite (pretty_N_step (x / 10 / 10))
    by (apply N.div_le_lower_bound; [lia|]; apply N.div_le_lower_bound; lia).
  rewrite !N.Div0.div_div. change (10 * 10 * 10)%N with 1000%N.
  change (10 * 10)%N with 100%N.
  cbn [fixed_digits]. change ("" +:+ ?s) with s.
  rewrite !N.Div0.div_div. change (10 * 10)%N with 100%N.
  rewrite (digit_mod (x mod 1000) x), (digit_mod (x mod 1000 / 10) (x / 10)),
    (digit_mod (x mod 1000 / 100) (x / 100)).
  - now rewrite !app_assoc_str.
  - zify. Z.to_euclidean_division_equations. lia.
  - zify. Z.to_euclidean_division_equations. lia.
  - zify. Z.to_euclidean_division_equations. lia.
Qed.

Lemma pretty_N_length_short (x : N) :
  (x < 1000)%N -> String.length (pretty x) <= 3.
Proof.
  intros H.
  destruct (N.lt_ge_cases x 10) as [H1|H1].
  { rewrite (pretty_N_small x H1). cbn. lia. }
  rewrite (pretty_N_step x H1), length_app_str.
  destruct (N.lt_ge_cases (x / 10) 10) as [H2|H2].
  { rewrite (pretty_N_small _ H2). cbn. lia. }
  rewrite (pretty_N_step _ H2), length_app_str.
  rewrite (pretty_N_small (x / 10 / 10)); [cbn; lia|].
  apply N.Div0.div_lt_upper_bound, N.Div0.div_lt_upper_bound. lia.
Qed.

(** [group_digits] writes the thousands grouped. *)
Lemma group_digits_grouped (x : N) :
  thousands_grouped x (group_digits (pretty x)).
Proof.
  induction (N.lt_wf_0 x) as [x _ IH].
  destruct (N.lt_ge_cases x 1000) as [H|H].
  - rewrite (group_digits_short _ (pretty_N_length_short x H)).
    now apply grouped_last.
  - rewrite (pretty_N_thousands x H),
      (group_digits_app _ _ (pretty_N_nonempty _) (fixed_digits_length 3 _)).
    apply grouped_more; [exact H|]. apply IH. apply N.div_lt; lia.
Qed.

Lemma format_int_grouped_spec (z : Z) : grouped_int z (format_int_grouped z).
Proof.
  destruct z as [|p|p]; cbn [grouped_int format_int_grouped].
  - reflexivity.
  - apply (group_digits_grouped (Npos p)).
  - eexists. split; [reflexivity|]. apply (group_digits_grouped (Npos p)).
Qed.

(** The grouped notation of a number is unique. *)
Lemma thousands_grouped_unique (x : N) (s t : string) :
  thousands_grouped x s -> thousands_grouped x t -> s = t.
Proof.
  intros Hs. revert t. induction Hs as [n Hn | n s Hn Hs IH]; intros t Ht.
  - inversion Ht; subst; [reflexivity | lia].
  - inversion Ht; subst; [lia|]. now rewrite (IH _ H0).
Qed.
(** *** Tracking-link client *)

Ltac run_link :=
  unfold create_tracking_link, link_outcome, after_link, bind, try_except,
    datetime_now, requests_post, response_json, ret, raise in *;
  cbn [clock ticks network sent tick push_request] in *.

Lemma create_tracking_link_raise v id w e :
  link_outcome v id w = Raise e ->
  create_tracking_link v id w = (Ok FALLBACK_LINK, after_link v id w).
Proof. intros H. run_link. rewrite H. now destruct (is_RequestException e). Qed.

Lemma create_tracking_link_not_200 v id w resp :
  link_outcome v id w = Ok resp -> status_code resp <> 200%Z ->
  create_tracking_link v id w = (Ok FALLBACK_LINK, after_link v id w).
Proof.
  intros H Hs. run_link. rewrite H.
  apply Z.eqb_neq in Hs. now rewrite Hs.
Qed.

Lemma create_tracking_link_not_object v id w resp :
  link_outcome v id w = Ok resp -> status_code resp = 200%Z ->
  (forall d, resp_json resp <> Some (JObj d)) ->
  create_tracking_link v id w = (Ok FALLBACK_LINK, after_link v id w).
Proof.
  intros H Hs Hd. run_link. rewrite H, Hs. cbn.
  destruct (resp_json resp) as [[a|l|d]|]; cbn; try reflexivity.
  now destruct (Hd d).
Qed.

Lemma create_tracking_link_object v id w resp d :
  link_outcome v id w = Ok resp -> status_code resp = 200%Z ->
  resp_json resp = Some (JObj d) ->
  create_tracking_link v id w =
    (Ok (let tracking_link :=
           py_or (py_or (dict_get d "tracking_link") (dict_get d "link"))
                 (dict_get d "url") in
         if truthy tracking_link then tracking_link else FALLBACK_LINK),
     after_link v id w).
Proof.
  intros H Hs Hd. run_link. rewrite H, Hs, Hd. cbn.
  now destruct (truthy _).
Qed.

Lemma dict_get_truthy d k :
  truthy (dict_get d k) = true ->
  exists x, d !! k = Some x /\ dict_get d k = x /\ truthy x = true.
Proof.
  unfold dict_get. destruct (d !! k) as [x|]; cbn; [eauto | discriminate].
Qed.

Lemma selected_is_str d k :
  link_values_are_strings d ->
  In k ["tracking_link"; "link"; "url"] ->
  truthy (dict_get d k) = true -> is_str (dict_get d k).
Proof.
  intros Hstr Hk Ht. apply dict_get_truthy in Ht as (x & Hx & -> & Hxt).
  now apply (Hstr k x).
Qed.

(** Whatever the network does, the client returns normally, having read
    the clock once and sent one request. *)
Lemma create_tracking_link_returns v id w :
  exists r, create_tracking_link v id w = (Ok r, after_link v id w).
Proof.
  destruct (link_outcome v id w) as [resp|e] eqn:Hout.
  2:{ eexists. now apply create_tracking_link_raise with (e := e). }
  destruct (Z.eq_dec (status_code resp) 200%Z) as [Hs|Hs].
  2:{ eexists. now apply create_tracking_link_not_200 with (resp := resp). }
  destruct (resp_json resp) as [[a|l|d]|] eqn:Hj.
  3:{ eexists. apply create_tracking_link_object with (resp := resp); eauto. }
  all: eexists; apply create_tracking_link_not_object with (resp := resp);
    auto; intros d'; congruence.
Qed.

(** C1 (as amended): [create_tracking_link] never raises and makes exactly
    one request.  It returns the fallback ["elajans.link"] when the request
    raises, when the status is not 200, when the body of a 200 response is
    not a JSON object, and when none of [tracking_link], [link], [url]
    holds a truthy value.  When a 200 response maps [tracking_link] to a
    non-empty string [X] it returns [X].  The value returned is a string
    whenever the truthy values under the three keys are strings. *)
Theorem create_tracking_link_total (v id : atom) (w : world) :
  exists r : json,
    create_tracking_link v id w = (Ok r, after_link v id w) /\
    (forall e, link_outcome v id w = Raise e -> r = FALLBACK_LINK) /\
    (forall resp, link_outcome v id w = Ok resp ->
       status_code resp <> 200%Z -> r = FALLBACK_LINK) /\
    (forall resp, link_outcome v id w = Ok resp ->
       status_code resp = 200%Z ->
       (forall d, resp_json resp <> Some (JObj d)) -> r = FALLBACK_LINK) /\
    (forall resp d, link_outcome v id w = Ok resp ->
       status_code resp = 200%Z -> resp_json resp = Some (JObj d) ->
       (truthy (dict_get d "tracking_link") = false ->
        truthy (dict_get d "link") = false ->
        truthy (dict_get d "url") = false -> r = FALLBACK_LINK) /\
       (forall X, d !! "tracking_link" = Some (JAtom (AStr X)) -> X <> "" ->
                  r = JAtom (AStr X)) /\
       (link_values_are_strings d -> is_str r)).
Proof.
  destruct (link_outcome v id w) as [resp|e] eqn:Hout.
  2:{ exists FALLBACK_LINK. rewrite (create_tracking_link_raise _ _ _ _ Hout).
      repeat split; intros; congruence. }
  destruct (Z.eq_dec (status_code resp) 200%Z) as [Hs|Hs].
  2:{ exists FALLBACK_LINK. rewrite (create_tracking_link_not_200 _ _ _ _ Hout Hs).
      repeat split; intros; congruence. }
  destruct (resp_json resp) as [[a|l|d]|] eqn:Hj.
  1,2,4: exists FALLBACK_LINK;
    rewrite (create_tracking_link_not_object _ _ _ _ Hout Hs)
      by (intros d'; congruence);
    repeat split; intros; congruence.
  rewrite (create_tracking_link_object _ _ _ _ _ Hout Hs Hj).
  eexists. split; [reflexivity|].
  split; [discriminate|]. split; [intros ? [= <-]; contradiction|].
  split; [intros ? [= <-] _ H; now destruct (H d)|].
  intros resp' d' [= <-] _ Hj'. rewrite Hj in Hj'. injection Hj' as <-.
  cbn zeta. unfold py_or. split; [|split].
  - intros -> -> ->. reflexivity.
  - intros X HX HXne.
    assert (Hg : dict_get d "tracking_link" = JAtom (AStr X))
      by (unfold dict_get; now rewrite HX).
    assert (Ht : truthy (JAtom (AStr X)) = true).
    { cbn. destruct (String.eqb_spec X ""); [contradiction | reflexivity]. }
    rewrite Hg. repeat (rewrite Ht; cbv iota). reflexivity.
  - intros Hstr.
    destruct (truthy (dict_get d "tracking_link")) eqn:E1.
    { repeat (rewrite E1; cbv iota).
      apply (selected_is_str d "tracking_link"); cbn; auto. }
    destruct (truthy (dict_get d "link")) eqn:E2.
    { repeat (rewrite E2; cbv iota).
      apply (selected_is_str d "link"); cbn; auto. }
    destruct (truthy (dict_get d "url")) eqn:E3.
    { apply (selected_is_str d "url"); cbn; auto. }
    now exists "elajans.link".
Qed.

(** C10: on a 200 response whose JSON object holds a falsy value under
    [tracking_link] (the empty string, [null], [0], [false], an empty
    array or object), the key being present does not win: the client
    returns the value under [link] if that is truthy, else the value under
    [url] if that is truthy, else the fallback ["elajans.link"]. *)
Theorem falsy_tracking_link_falls_through
    (v id : atom) (w : world) (resp : response) (d : gmap string json) (x : json) :
  link_outcome v id w = Ok resp ->
  status_code resp = 200%Z ->
  resp_json resp = Some (JObj d) ->
  d !! "tracking_link" = Some x ->
  truthy x = false ->
  create_tracking_link v id w =
    (Ok (if truthy (dict_get d "link") then dict_get d "link"
         else if truthy (dict_get d "url") then dict_get d "url"
         else FALLBACK_LINK),
     after_link v id w).
Proof.
  intros Hout Hs Hj Hx Hf.
  rewrite (create_tracking_link_object _ _ _ _ _ Hout Hs Hj).
  assert (Hg : truthy (dict_get d "tracking_link") = false)
    by (unfold dict_get; now rewrite Hx).
  cbn zeta. unfold py_or. rewrite Hg.
  destruct (truthy (dict_get d "link")) eqn:E2; [now rewrite E2|].
  now destruct (truthy (dict_get d "url")) eqn:E3.
Qed.

(** C9: on a date of the calendar, the link name of the request that
    [create_tracking_link] sends is ["flashsale-"], the date of the clock
    reading written [YYYYMMDD] (four digits of the year, two of the month,
    two of the day), ["-"] and the vehicle name; and two calls for the same
    vehicle whose clock readings fall on the same calendar day ask for the
    same link name, whatever the time of day, the vehicle id and the rest
    of the world. *)
Theorem link_name_per_vehicle_per_day (name : string) :
  (forall id w,
     calendar_date (dt_date (clock w (ticks w))) ->
     exists p,
       sent (snd (create_tracking_link (AStr name) id w))
         = {| req_url := "https://hi.nonito.xyz/create_tracking_link";
              req_json := LinkBody p; req_headers := []; req_timeout := 30 |}
           :: sent w /\
       link_name p
         = "flashsale-" +:+ yyyymmdd (dt_date (clock w (ticks w))) +:+ "-" +:+ name) /\
  (forall id1 id2 w1 w2,
     dt_date (clock w1 (ticks w1)) = dt_date (clock w2 (ticks w2)) ->
     exists p1 p2,
       req_json <$> head (sent (snd (create_tracking_link (AStr name) id1 w1)))
         = Some (LinkBody p1) /\
       req_json <$> head (sent (snd (create_tracking_link (AStr name) id2 w2)))
         = Some (LinkBody p2) /\
       link_name p1 = link_name p2).
Proof.
  assert (Hsent : forall id w,
    sent (snd (create_tracking_link (AStr name) id w))
    = link_request (clock w (ticks w)) (AStr name) id :: sent w).
  { intros id w.
    destruct (create_tracking_link_returns (AStr name) id w) as (r & ->).
    reflexivity. }
  split.
  - intros id w Hday. rewrite Hsent. eexists. split; [reflexivity|].
    cbn [link_name]. now rewrite (strftime_Ymd_fixed _ Hday).
  - intros id1 id2 w1 w2 Hday. rewrite !Hsent. cbn.
    do 2 eexists. do 2 (split; [reflexivity|]). cbn.
    unfold strftime_Ymd. now rewrite Hday.
Qed.
(** *** Post renderer *)

(** C7: [generate_post_content] never raises and leaves the world as it
    is, whatever the record and the link.  For a record whose make and
    model are strings and whose year and mileage are integers, as
    normalisation leaves them, and a tracking link that is a string, the
    result is the template filled with the make, the model, the year in
    decimal, the mileage with its thousands grouped by commas, and the
    link.  When the mileage cannot be formatted (it is a string or [None])
    the result is the one-line fallback made of the make, the model, the
    year and the link. *)
Theorem generate_post_content_never_raises :
  (forall (c : car) (link : json) (w : world),
     exists s, generate_post_content c link w = (Ok s, w)) /\
  (forall (c : car) (mk md : string) (y k : Z) (l : string) (w : world),
     make c = AStr mk -> model c = AStr md ->
     year c = AInt y -> kilometers c = AInt k ->
     exists km,
       grouped_int k km /\
       generate_post_content c (JAtom (AStr l)) w
       = (Ok ("🚗 " +:+ mk +:+ " " +:+ md +:+ " - " +:+ pretty y +:+ " - " +:+ km +:+
              " كم
دلوقتي نزلت على التطبيق بسعر خاص لمدة 36 ساعة بس!
📋 التقرير المفصل متوفر على التطبيق.
📲 شوفها هنا: " +:+ l), w)) /\
  (forall (c : car) (mk md : string) (y : Z) (l : string) (w : world),
     make c = AStr mk -> model c = AStr md -> year c = AInt y ->
     kilometers c = ANone \/ (exists t, kilometers c = AStr t) ->
     generate_post_content c (JAtom (AStr l)) w
     = (Ok ("🔥 Flash Sale! " +:+ mk +:+ " " +:+ md +:+ " " +:+ pretty y +:+ " - " +:+ l), w)).
Proof.
  split; [|split].
  - intros c link w.
    unfold generate_post_content, try_except, lift, format_post_template, bind_r, ret.
    destruct (format_grouped (kilometers c)); eexists; reflexivity.
  - intros c mk md y k l w Hmk Hmd Hy Hk.
    exists (format_int_grouped k). split; [apply format_int_grouped_spec|].
    unfold generate_post_content, try_except, lift, format_post_template, bind_r, ret.
    rewrite Hmk, Hmd, Hy, Hk. cbn [format_grouped str_atom py_str].
    reflexivity.
  - intros c mk md y l w Hmk Hmd Hy Hk.
    unfold generate_post_content, try_except, lift, format_post_template, bind_r, ret.
    rewrite Hmk, Hmd, Hy.
    destruct Hk as [-> | [t ->]]; reflexivity.
Qed.
(** *** Orchestrator *)

(** The skip policy of the loop: unknown make or model, or a vehicle id
    that Python takes for false (the empty string, [None]). *)
Lemma process_car_skip (c : car) (acc : tally) (w : world) :
  make c = AStr "Unknown" \/ model c = AStr "Unknown" \/
    atom_truthy (ajans_vehicle_id c) = false ->
  process_car c acc w = (Ok (count_failure acc), w).
Proof.
  intros H. unfold process_car, try_except, ret.
  destruct (atom_eq_str (make c) "Unknown" || atom_eq_str (model c) "Unknown") eqn:E;
    [reflexivity|].
  apply orb_false_elim in E as [E1 E2].
  destruct H as [H | [H | H]].
  - rewrite H in E1. discriminate.
  - rewrite H in E2. discriminate.
  - now rewrite H.
Qed.

(** C2: a record whose make or model is ["Unknown"], or whose vehicle id
    is empty, goes through the loop body without any effect on the world
    (so no tracking-link request is sent), adds no post, adds one to the
    failure counter and leaves the success counter alone; the loop then
    carries on with the remaining records. *)
Theorem skipped_record_counts_as_failure
    (c : car) (rest : list car) (acc : tally) (w : world) :
  make c = AStr "Unknown" \/ model c = AStr "Unknown" \/
    atom_truthy (ajans_vehicle_id c) = false ->
  process_car c acc w =
    (Ok {| posts := posts acc;
           successful_posts := successful_posts acc;
           failed_posts := failed_posts acc + 1 |}, w) /\
  process_cars (c :: rest) acc w =
    process_cars rest {| posts := posts acc;
                         successful_posts := successful_posts acc;
                         failed_posts := failed_posts acc + 1 |} w.
Proof.
  intros H. pose proof (process_car_skip c acc w H) as Hskip.
  unfold count_failure in Hskip. rewrite <- Nat.add_1_r in Hskip.
  split; [exact Hskip|].
  cbn [process_cars]. unfold bind. now rewrite Hskip.
Qed.
(** *** The whole batch *)

Lemma generate_post_content_returns (c : car) (link : json) (w : world) :
  exists s, generate_post_content c link w = (Ok s, w).
Proof.
  unfold generate_post_content, try_except, lift, ret.
  destruct (format_post_template _ _ _ _ _); eauto.
Qed.

Lemma skipped_cases (c : car) :
  skipped c = true ->
  make c = AStr "Unknown" \/ model c = AStr "Unknown" \/
    atom_truthy (ajans_vehicle_id c) = false.
Proof.
  unfold skipped, atom_eq_str. intros H.
  apply orb_true_iff in H as [H | H]; [apply orb_true_iff in H as [H | H]|].
  - left. destruct (make c); try discriminate. apply String.eqb_eq in H. now subst.
  - right; left. destruct (model c); try discriminate.
    apply String.eqb_eq in H. now subst.
  - right; right. now apply negb_true_iff.
Qed.

(** A record that passes the skip policy costs one request and yields one
    post, which carries the record's name. *)
Lemma process_car_kept (c : car) (acc : tally) (w : world) :
  skipped c = false ->
  exists p w',
    process_car c acc w =
      (Ok {| posts := posts acc ++ [p];
             successful_posts := S (successful_posts acc);
             failed_posts := failed_posts acc |}, w') /\
    post_car_id p = sf_vehicle_name c /\
    length (sent w') = S (length (sent w)).
Proof.
  unfold skipped. intros H.
  apply orb_false_elim in H as [H Hid]. apply negb_false_iff in Hid.
  unfold process_car, try_except, bind. rewrite H, Hid. cbn [negb].
  destruct (create_tracking_link_returns (sf_vehicle_name c) (ajans_vehicle_id c) w)
    as (r & ->).
  destruct (generate_post_content_returns c r
              (after_link (sf_vehicle_name c) (ajans_vehicle_id c) w)) as (s & ->).
  unfold datetime_now, ret. do 2 eexists. split; [reflexivity|].
  split; reflexivity.
Qed.

(** The loop never raises.  It appends one post per record that passes the
    skip policy, in batch order and under that record's name, counts these
    as successes and the other records as failures, and sends one request
    per post. *)
Theorem process_cars_accounting (cars : list car) (acc : tally) (w : world) :
  exists acc' w',
    process_cars cars acc w = (Ok acc', w') /\
    map post_car_id (posts acc')
      = map post_car_id (posts acc) ++ map sf_vehicle_name (kept cars) /\
    successful_posts acc' = successful_posts acc + length (kept cars) /\
    failed_posts acc' + length (kept cars) = failed_posts acc + length cars /\
    length (sent w') = length (sent w) + length (kept cars).
Proof.
  revert acc w; induction cars as [|c cars IH]; intros acc w.
  - exists acc, w. cbn. rewrite app_nil_r. repeat split; lia.
  - cbn [process_cars]. unfold bind, kept. cbn [List.filter].
    destruct (skipped c) eqn:Hskip; cbn [negb].
    + rewrite (process_car_skip c acc w (skipped_cases c Hskip)).
      destruct (IH (count_failure acc) w) as (acc' & w' & -> & Hp & Hs & Hf & Hn).
      exists acc', w'. cbn in *. fold (kept cars) in *.
      repeat split; try assumption; lia.
    + destruct (process_car_kept c acc w Hskip) as (p & w1 & -> & Hid & Hsent).
      destruct (IH {| posts := posts acc ++ [p];
                      successful_posts := S (successful_posts acc);
                      failed_posts := failed_posts acc |} w1)
        as (acc' & w' & -> & Hp & Hs & Hf & Hn).
      exists acc', w'. cbn in *. fold (kept cars) in *.
      split; [reflexivity|]. split.
      * rewrite Hp, map_app, <- app_assoc. cbn. now rewrite Hid.
      * repeat split; lia.
Qed.
(** *** Webhook dispatcher *)

Lemma post_key_inj (i j : nat) : post_key i = post_key j -> i = j.
Proof.
  unfold post_key. intros H.
  apply (inj (String.append "post_")) in H.
  apply (inj pretty) in H. lia.
Qed.

Lemma add_posts_lookup_other (i : nat) (l : list post)
    (m : gmap string payload_value) (k : string) :
  (forall j, i <= j < i + length l -> k <> post_key j) ->
  add_posts i l m !! k = m !! k.
Proof.
  revert i m; induction l as [|p l IH]; intros i m Hk; cbn [add_posts].
  - reflexivity.
  - rewrite IH.
    + apply lookup_insert_ne. intros E. apply (Hk i); [cbn; lia | now symmetry].
    + intros j Hj. apply Hk. cbn. lia.
Qed.

Lemma add_posts_lookup_post (i : nat) (l : list post)
    (m : gmap string payload_value) (n : nat) (q : post) :
  l !! n = Some q -> add_posts i l m !! post_key (i + n) = Some (PvPost q).
Proof.
  revert i m n; induction l as [|p l IH]; intros i m n Hn; [discriminate|].
  cbn [add_posts]. destruct n as [|n].
  - injection Hn as ->. rewrite Nat.add_0_r, add_posts_lookup_other.
    + apply lookup_insert_eq.
    + intros j Hj E. apply post_key_inj in E. lia.
  - replace (i + S n) with (S i + n) by lia. now apply IH.
Qed.

Lemma add_posts_keys (i : nat) (l : list post)
    (m : gmap string payload_value) (k : string) :
  is_Some (add_posts i l m !! k) ->
  is_Some (m !! k) \/ exists n, n < length l /\ k = post_key (i + n).
Proof.
  revert i m; induction l as [|p l IH]; intros i m Hk; cbn [add_posts] in Hk.
  - now left.
  - apply IH in Hk as [Hk | (n & Hn & ->)].
    + destruct (decide (post_key i = k)) as [<-|Hne].
      * right. exists 0. split; [cbn; lia | now rewrite Nat.add_0_r].
      * left. now rewrite lookup_insert_ne in Hk.
    + right. exists (S n). split; [cbn; lia | f_equal; lia].
Qed.

Lemma add_posts_size (i : nat) (l : list post) (m : gmap string payload_value) :
  (forall j, i <= j -> m !! post_key j = None) ->
  size (add_posts i l m) = size m + length l.
Proof.
  revert i m; induction l as [|p l IH]; intros i m Hm; cbn [add_posts length].
  - lia.
  - rewrite IH.
    + rewrite map_size_insert_None by (apply Hm; lia). lia.
    + intros j Hj. rewrite lookup_insert_ne.
      * apply Hm. lia.
      * intros E. apply post_key_inj in E. lia.
Qed.

Lemma post_key_not_metadata (j : nat) :
  post_key j <> "total_count" /\ post_key j <> "generated_at" /\
  post_key j <> "source".
Proof. unfold post_key. repeat split; intros E; discriminate E. Qed.

Ltac run_send :=
  unfold send_posts_to_webhook, bind, try_except, datetime_now, requests_post,
    ret in *;
  cbn [clock ticks network sent tick push_request] in *.

(** C4: on an empty list [send_posts_to_webhook] returns [False] and
    touches nothing; on a non-empty list it reads the clock once, sends
    exactly one request (the webhook POST) and returns normally, with
    [True] if and only if the request was answered with status 200, 201 or
    202; every other status and every exception give [False]. *)
Theorem send_posts_to_webhook_single_attempt :
  (forall w, send_posts_to_webhook [] w = (Ok false, w)) /\
  (forall p ps w,
     let req :=
       webhook_request (build_payload (p :: ps) (isoformat (clock w (ticks w)))) in
     exists b,
       send_posts_to_webhook (p :: ps) w = (Ok b, push_request req (tick w)) /\
       (b = true <->
        exists resp, network w (req :: sent w) = Ok resp /\
                     In (status_code resp) [200; 201; 202]%Z)).
Proof.
  split; [reflexivity|].
  intros p ps w req. run_send. fold req.
  destruct (network w (req :: sent w)) as [resp|e] eqn:Hnet.
  - destruct (existsb (Z.eqb (status_code resp)) [200; 201; 202]%Z) eqn:Hst.
    + exists true. split; [reflexivity|]. split; [|reflexivity].
      intros _. exists resp. split; [reflexivity|].
      apply existsb_exists in Hst as (z & Hz & Heq).
      apply Z.eqb_eq in Heq. now rewrite Heq.
    + exists false. split; [reflexivity|]. split; [discriminate|].
      intros (resp' & [= <-] & Hin).
      assert (existsb (Z.eqb (status_code resp)) [200; 201; 202]%Z = true).
      { apply existsb_exists. exists (status_code resp).
        split; [exact Hin | apply Z.eqb_refl]. }
      congruence.
  - exists false. split.
    + now destruct (is_Timeout e), (is_RequestException e).
    + split; [discriminate | intros (resp & H & _); discriminate].
Qed.

(** C5: the payload that [send_posts_to_webhook] posts for a non-empty
    list of [N] posts maps [total_count] to [N], [generated_at] to the
    timestamp of the clock reading, which for a reading with its fields in
    range is that reading written [YYYY-MM-DDTHH:MM:SS], with [.ffffff]
    after it when the microseconds are not zero, [source] to the constant
    ["flash_sale_posts_generator"], and [post_i] to the [i]-th post for
    [i] from 1 to [N]; it has no other key, hence [N + 3] entries. *)
Theorem webhook_payload_is_flat (p : post) (ps : list post) (w : world) :
  let posts := p :: ps in
  let timestamp := isoformat (clock w (ticks w)) in
  let payload := build_payload posts timestamp in
  head (sent (snd (send_posts_to_webhook posts w))) = Some (webhook_request payload) /\
  req_json (webhook_request payload) = WebhookBody payload /\
  payload !! "total_count" = Some (PvInt (length posts)) /\
  payload !! "generated_at" = Some (PvStr timestamp) /\
  (valid_datetime (clock w (ticks w)) ->
   timestamp = iso_timestamp (clock w (ticks w))) /\
  payload !! "source" = Some (PvStr "flash_sale_posts_generator") /\
  (forall i q, posts !! i = Some q ->
               payload !! ("post_" +:+ pretty (i + 1)) = Some (PvPost q)) /\
  (forall k, is_Some (payload !! k) ->
             k = "total_count" \/ k = "generated_at" \/ k = "source" \/
             exists i, i < length posts /\ k = "post_" +:+ pretty (i + 1)) /\
  size payload = length posts + 3.
Proof.
  intros posts timestamp payload.
  assert (Hmeta : forall k, k = "total_count" \/ k = "generated_at" \/ k = "source" ->
            payload !! k = add_metadata (length posts) timestamp ∅ !! k).
  { intros k Hk. unfold payload, build_payload. apply add_posts_lookup_other.
    intros j _ E. pose proof (post_key_not_metadata j) as (H1 & H2 & H3).
    destruct Hk as [-> | [-> | ->]]; congruence. }
  split; [|split; [reflexivity|]].
  { unfold posts. run_send. fold timestamp. fold payload.
    now destruct (network w _) as [resp|e];
      [destruct (existsb _ _) | destruct (is_Timeout e), (is_RequestException e)]. }
  split; [rewrite Hmeta by auto; reflexivity|].
  split; [rewrite Hmeta by auto; reflexivity|].
  split; [intros Hv; apply (isoformat_fixed _ Hv)|].
  split; [rewrite Hmeta by auto; reflexivity|].
  split; [|split].
  - intros i q Hi. apply (add_posts_lookup_post 0 posts _ i q Hi).
  - intros k Hk. unfold payload, build_payload, add_metadata in Hk.
    apply add_posts_keys in Hk as [Hk | (n & Hn & ->)].
    + destruct (decide (k = "source")) as [->|N1]; [auto|].
      destruct (decide (k = "generated_at")) as [->|N2]; [auto|].
      destruct (decide (k = "total_count")) as [->|N3]; [auto|].
      rewrite !lookup_insert_ne, lookup_empty in Hk by congruence.
      now destruct Hk.
    + right; right; right. exists n. split; [exact Hn | reflexivity].
  - unfold payload, build_payload, add_metadata. rewrite add_posts_size.
    + rewrite !map_size_insert_None, map_size_empty; [lia|..].
      * apply lookup_empty.
      * now rewrite lookup_insert_ne, lookup_empty.
      * now rewrite !lookup_insert_ne, lookup_empty.
    + intros j _. pose proof (post_key_not_metadata j) as (H1 & H2 & H3).
      rewrite !lookup_insert_ne, lookup_empty by congruence. reflexivity.
Qed.
(** *** Warehouse rows *)

Lemma float_trunc_truncates (s : bool) (m : positive) (e : Z) :
  float_trunc s m e = truncate_float s m e.
Proof.
  unfold float_trunc, truncate_float.
  destruct (Z.leb_spec 0 e) as [He|He].
  - rewrite Z.shiftl_mul_pow2 by exact He. destruct s; [|reflexivity].
    now rewrite <- Z.mul_opp_l.
  - assert (Hsh : Z.shiftl (Z.pos m) e = (Z.pos m / 2 ^ (- e))%Z).
    { rewrite <- (Z.opp_involutive e) at 1.
      rewrite Z.shiftl_opp_r. apply Z.shiftr_div_pow2. lia. }
    rewrite Hsh.
    assert (Hpow : (0 < 2 ^ (- e))%Z) by (apply Z.pow_pos_nonneg; lia).
    destruct s.
    + change (Z.neg m) with (- Z.pos m)%Z.
      rewrite Z.quot_opp_l by lia. f_equal.
      symmetry. apply Z.quot_div_nonneg; lia.
    + symmetry. apply Z.quot_div_nonneg; lia.
Qed.

Lemma int_or_zero_expected (v : atom) (z : Z) :
  expected_int v = Some z -> int_or_zero v = Ok (AInt z).
Proof.
  unfold int_or_zero, expected_int.
  destruct v as [| b | i | [sg | sg | | sg m e] | t | d]; cbn;
    intros H; try discriminate; injection H as <-; try reflexivity.
  now rewrite float_trunc_truncates.
Qed.

Lemma normalize_row_expected (row : gmap string atom)
    (name vid mk md yr km pub : atom) (y k : Z) :
  row !! "sf_vehicle_name" = Some name ->
  row !! "ajans_vehicle_id" = Some vid ->
  row !! "car_make" = Some mk ->
  row !! "car_model" = Some md ->
  row !! "car_year" = Some yr ->
  row !! "kilometrage" = Some km ->
  row !! "published_at" = Some pub ->
  expected_int yr = Some y ->
  expected_int km = Some k ->
  normalize_row row =
    Ok {| sf_vehicle_name := name;
          ajans_vehicle_id := vid;
          make := expected_name mk;
          model := expected_name md;
          year := AInt y;
          kilometers := AInt k;
          published_at := pub |}.
Proof.
  intros H1 H2 H3 H4 H5 H6 H7 Hy Hk.
  unfold normalize_row, row_get.
  rewrite H1, H2, H3, H4, H5, H6, H7. cbn [bind_r].
  rewrite (int_or_zero_expected _ _ Hy), (int_or_zero_expected _ _ Hk).
  cbn [bind_r]. unfold or_unknown, expected_name.
  now destruct (pd_isna mk), (pd_isna md).
Qed.

Ltac run_fetch :=
  unfold fetch_cars, try_except, bind, run_query, lift, ret in *.

(** The fetch never raises and runs exactly the query it is given. *)
Lemma fetch_cars_returns (cl : bq_client) (q : string) (w : world) :
  exists cars, fetch_cars cl q w = (Ok cars, log_query q w).
Proof.
  run_fetch. destruct (cl q) as [[|r rows]|e]; eauto.
  destruct (map_r normalize_row (r :: rows)); eauto.
Qed.

Lemma fetch_cars_rows (cl : bq_client) (q : string) (w : world)
    (rows : dataframe) (cars : list car) :
  cl q = Ok rows -> map_r normalize_row rows = Ok cars ->
  fetch_cars cl q w = (Ok cars, log_query q w).
Proof.
  intros Hq Hrows. run_fetch. rewrite Hq.
  destruct rows as [|r rows]; [now injection Hrows as <- | now rewrite Hrows].
Qed.

(** C6 (as amended): a row that exposes the seven columns, and whose year
    and mileage cells are null, integers or finite floats, is normalised
    to the record that copies name and vehicle id, puts ["Unknown"] for a
    null make or model, puts [0] for a null year or mileage and the
    integer part (rounded toward zero) of a present one, and carries
    [published_at] over; a dataframe of such rows yields the sequence of
    their records, and a dataframe without rows yields the empty sequence,
    not an exception. *)
Theorem normalization_of_rows :
  (forall (row : gmap string atom) name vid mk md yr km pub y k,
     row !! "sf_vehicle_name" = Some name ->
     row !! "ajans_vehicle_id" = Some vid ->
     row !! "car_make" = Some mk ->
     row !! "car_model" = Some md ->
     row !! "car_year" = Some yr ->
     row !! "kilometrage" = Some km ->
     row !! "published_at" = Some pub ->
     expected_int yr = Some y ->
     expected_int km = Some k ->
     normalize_row row =
       Ok {| sf_vehicle_name := name;
             ajans_vehicle_id := vid;
             make := if pd_isna mk then AStr "Unknown" else mk;
             model := if pd_isna md then AStr "Unknown" else md;
             year := AInt y;
             kilometers := AInt k;
             published_at := pub |}) /\
  (forall self cl custom_query w rows cars,
     client self = Some cl ->
     (supplied custom_query = true ->
      fst (validate_query_columns (effective_query custom_query)) = true) ->
     cl (effective_query custom_query) = Ok rows ->
     map_r normalize_row rows = Ok cars ->
     get_flash_sale_cars self custom_query w
       = (Ok cars, log_query (effective_query custom_query) w)) /\
  (forall self cl custom_query w,
     client self = Some cl ->
     (supplied custom_query = true ->
      fst (validate_query_columns (effective_query custom_query)) = true) ->
     cl (effective_query custom_query) = Ok [] ->
     get_flash_sale_cars self custom_query w
       = (Ok [], log_query (effective_query custom_query) w)).
Proof.
  assert (Hget : forall self cl custom_query w,
    client self = Some cl ->
    (supplied custom_query = true ->
     fst (validate_query_columns (effective_query custom_query)) = true) ->
    get_flash_sale_cars self custom_query w
      = fetch_cars cl (effective_query custom_query) w).
  { intros self cl custom_query w Hcl Hvalid.
    unfold get_flash_sale_cars. rewrite Hcl.
    destruct custom_query as [c|]; [|reflexivity].
    unfold effective_query in *. cbn [supplied] in *.
    destruct (negb (String.eqb c "")); [|reflexivity].
    specialize (Hvalid eq_refl).
    destruct (validate_query_columns c) as [valid missing].
    cbn [fst] in Hvalid. now rewrite Hvalid. }
  split; [|split].
  - intros row name vid mk md yr km pub y k H1 H2 H3 H4 H5 H6 H7 Hy Hk.
    exact (normalize_row_expected row name vid mk md yr km pub y k
             H1 H2 H3 H4 H5 H6 H7 Hy Hk).
  - intros self cl custom_query w rows cars Hcl Hvalid Hrows Hcars.
    rewrite (Hget self cl custom_query w Hcl Hvalid).
    now apply fetch_cars_rows with (rows := rows).
  - intros self cl custom_query w Hcl Hvalid Hrows.
    rewrite (Hget self cl custom_query w Hcl Hvalid).
    now apply fetch_cars_rows with (rows := []).
Qed.

(** C8 (as amended): a non-empty custom query that fails the column check
    is reported, with the missing columns listed, and is not run: no query
    reaches the warehouse and the result is empty.  When no custom query,
    or an empty one, is passed, the built-in query is the one that is run,
    without any validation report. *)
Theorem invalid_custom_query_is_not_run
    (self : generator) (cl : bq_client) (w : world) :
  client self = Some cl ->
  (forall q,
     q <> "" -> fst (validate_query_columns q) = false ->
     get_flash_sale_cars self (Some q) w =
       (Ok [],
        show Error "Please ensure your query returns all required columns with exact names."
          (show Error ("❌ Custom query is missing required columns: " +:+ Str.join ", " (snd (validate_query_columns q))) w)) /\
     executed (snd (get_flash_sale_cars self (Some q) w)) = executed w) /\
  (forall custom_query,
     supplied custom_query = false ->
     get_flash_sale_cars self custom_query w = fetch_cars cl DEFAULT_QUERY w /\
     executed (snd (get_flash_sale_cars self custom_query w))
       = DEFAULT_QUERY :: executed w /\
     page (snd (get_flash_sale_cars self custom_query w)) = page w).
Proof.
  intros Hcl. split.
  - intros q Hq Hinvalid.
    assert (E : get_flash_sale_cars self (Some q) w =
       (Ok [],
        show Error "Please ensure your query returns all required columns with exact names."
          (show Error ("❌ Custom query is missing required columns: " +:+ Str.join ", " (snd (validate_query_columns q))) w))).
    { unfold get_flash_sale_cars. rewrite Hcl.
      destruct (String.eqb_spec q "") as [->|_]; [contradiction|]. cbn [negb].
      destruct (validate_query_columns q) as [valid missing].
      cbn [fst] in Hinvalid. rewrite Hinvalid. reflexivity. }
    now rewrite E.
  - intros custom_query Hsup.
    assert (E : get_flash_sale_cars self custom_query w = fetch_cars cl DEFAULT_QUERY w).
    { unfold get_flash_sale_cars. rewrite Hcl.
      destruct custom_query as [c|]; [|reflexivity].
      cbn in Hsup. now rewrite Hsup. }
    rewrite E. destruct (fetch_cars_returns cl DEFAULT_QUERY w) as (cars & ->).
    auto.
Qed.

(** *** Further properties: the tracking link is never empty *)

Lemma create_tracking_link_returns_truthy (v id : atom) (w : world) :
  exists r,
    create_tracking_link v id w = (Ok r, after_link v id w) /\ truthy r = true.
Proof.
  destruct (link_outcome v id w) as [resp|e] eqn:Hout.
  2:{ exists FALLBACK_LINK. split; [|reflexivity].
      now apply create_tracking_link_raise with (e := e). }
  destruct (Z.eq_dec (status_code resp) 200%Z) as [Hs|Hs].
  2:{ exists FALLBACK_LINK. split; [|reflexivity].
      now apply create_tracking_link_not_200 with (resp := resp). }
  destruct (resp_json resp) as [[a|l|d]|] eqn:Hj.
  3:{ eexists. split.
      - apply create_tracking_link_object with (resp := resp); eauto.
      - cbn zeta. now destruct (truthy (py_or _ _)) eqn:E. }
  all: exists FALLBACK_LINK; split; [|reflexivity];
    apply create_tracking_link_not_object with (resp := resp);
    auto; intros d'; congruence.
Qed.

(** Whatever the link service answers, [create_tracking_link] never
    returns [None], an empty string or any other falsy value: the link of
    a post is always populated. *)
Theorem tracking_link_always_populated (v id : atom) (w : world) (r : json) :
  fst (create_tracking_link v id w) = Ok r -> truthy r = true.
Proof.
  intros H.
  destruct (create_tracking_link_returns_truthy v id w) as (r' & E & Hr').
  rewrite E in H. cbn [fst] in H. injection H as <-. exact Hr'.
Qed.

(** *** Further properties: the fetch *)

Lemma get_flash_sale_cars_cases (self : generator) (custom_query : option string)
    (w : world) :
  (client self = None /\ get_flash_sale_cars self custom_query w = (Ok [], w)) \/
  (exists cl msg1 msg2, client self = Some cl /\
     get_flash_sale_cars self custom_query w
       = (Ok [], show Error msg2 (show Error msg1 w))) \/
  (exists cl q, client self = Some cl /\
     get_flash_sale_cars self custom_query w = fetch_cars cl q w).
Proof.
  unfold get_flash_sale_cars.
  destruct (client self) as [cl|]; [|now left].
  destruct custom_query as [q|]; [|right; right; eauto].
  destruct (negb (String.eqb q "")); [|right; right; eauto].
  destruct (validate_query_columns q) as [valid missing].
  destruct valid; cbn [negb]; [right; right; eauto|].
  right; left. exists cl. do 2 eexists. split; reflexivity.
Qed.

Lemma get_flash_sale_cars_effective (self : generator) (cl : bq_client)
    (custom_query : option string) (w : world) :
  client self = Some cl ->
  (exists msg1 msg2,
     get_flash_sale_cars self custom_query w
       = (Ok [], show Error msg2 (show Error msg1 w))) \/
  get_flash_sale_cars self custom_query w
    = fetch_cars cl (effective_query custom_query) w.
Proof.
  intros Hcl. unfold get_flash_sale_cars, effective_query. rewrite Hcl.
  destruct custom_query as [q|]; [|now right]. cbn [supplied].
  destruct (negb (String.eqb q "")); [|now right].
  destruct (validate_query_columns q) as [valid missing].
  destruct valid; cbn [negb]; [now right|].
  left. do 2 eexists. reflexivity.
Qed.

Lemma map_r_raises {A B} (f : A -> result B) (l : list A) (x : A) (e : exn) :
  In x l -> f x = Raise e -> exists e', map_r f l = Raise e'.
Proof.
  induction l as [|y l IH]; intros Hin Hx; [destruct Hin|].
  cbn [map_r]. destruct Hin as [-> | Hin].
  - rewrite Hx. cbn. eauto.
  - destruct (f y); cbn; [|eauto].
    destruct (IH Hin Hx) as (e' & ->). cbn. eauto.
Qed.

Lemma fetch_cars_failing_query (cl : bq_client) (q : string) (w : world) (e : exn) :
  cl q = Raise e -> fetch_cars cl q w = (Ok [], log_query q w).
Proof. intros H. run_fetch. now rewrite H. Qed.

Lemma fetch_cars_failing_row (cl : bq_client) (q : string) (w : world)
    (rows : dataframe) (row : gmap string atom) (e : exn) :
  cl q = Ok rows -> In row rows -> normalize_row row = Raise e ->
  fetch_cars cl q w = (Ok [], log_query q w).
Proof.
  intros Hrows Hin Hbad. run_fetch. rewrite Hrows.
  destruct rows as [|r rows]; [destruct Hin|].
  now destruct (map_r_raises normalize_row (r :: rows) row e Hin Hbad) as (e' & ->).
Qed.

(** [get_flash_sale_cars] never raises, whatever the warehouse does: when
    the query it runs fails, and when a row of the answer cannot be
    normalised, the result is the empty list.  It runs at most one query,
    sends no HTTP request and does not read the clock; without a client it
    returns the empty list and touches nothing. *)
Theorem get_flash_sale_cars_contained
    (self : generator) (custom_query : option string) (w : world) :
  exists cars w',
    get_flash_sale_cars self custom_query w = (Ok cars, w') /\
    sent w' = sent w /\ ticks w' = ticks w /\
    (executed w' = executed w \/ exists q, executed w' = q :: executed w) /\
    (client self = None -> cars = [] /\ w' = w) /\
    (forall cl e,
       client self = Some cl ->
       cl (effective_query custom_query) = Raise e -> cars = []) /\
    (forall cl rows row e,
       client self = Some cl ->
       cl (effective_query custom_query) = Ok rows ->
       In row rows -> normalize_row row = Raise e -> cars = []).
Proof.
  destruct (client self) as [cl|] eqn:Hcl.
  - destruct (get_flash_sale_cars_effective self cl custom_query w Hcl)
      as [(m1 & m2 & E) | E]; rewrite E.
    + do 2 eexists. split; [reflexivity|]. do 3 (split; [auto|]).
      split; [discriminate|]. split; reflexivity.
    + destruct (fetch_cars_returns cl (effective_query custom_query) w)
        as (cars & Hcars).
      exists cars, (log_query (effective_query custom_query) w).
      split; [exact Hcars|]. do 2 (split; [reflexivity|]).
      split; [right; eauto|]. split; [discriminate|]. split.
      * intros cl' e [= <-] He.
        rewrite (fetch_cars_failing_query cl _ w e He) in Hcars. congruence.
      * intros cl' rows row e [= <-] Hrows Hin Hbad.
        rewrite (fetch_cars_failing_row cl _ w rows row e Hrows Hin Hbad) in Hcars.
        congruence.
  - exists [], w. unfold get_flash_sale_cars. rewrite Hcl.
    split; [reflexivity|]. do 3 (split; [auto|]).
    split; [auto|]. split; discriminate.
Qed.

(** One row that cannot be normalised empties the whole batch: when any
    row of the dataframe makes the conversion raise, the query has been
    run but the result is the empty list, and the rows that were fine are
    lost with it. *)
Theorem one_bad_row_empties_the_batch
    (self : generator) (cl : bq_client) (custom_query : option string)
    (w : world) (rows : dataframe) (row : gmap string atom) (e : exn) :
  client self = Some cl ->
  (supplied custom_query = true ->
   fst (validate_query_columns (effective_query custom_query)) = true) ->
  cl (effective_query custom_query) = Ok rows ->
  In row rows ->
  normalize_row row = Raise e ->
  get_flash_sale_cars self custom_query w
    = (Ok [], log_query (effective_query custom_query) w).
Proof.
  intros Hcl Hvalid Hrows Hin Hbad.
  assert (E : get_flash_sale_cars self custom_query w
              = fetch_cars cl (effective_query custom_query) w).
  { unfold get_flash_sale_cars. rewrite Hcl.
    destruct custom_query as [c|]; [|reflexivity].
    unfold effective_query in *. cbn [supplied] in *.
    destruct (negb (String.eqb c "")); [|reflexivity].
    specialize (Hvalid eq_refl).
    destruct (validate_query_columns c) as [valid missing].
    cbn [fst] in Hvalid. now rewrite Hvalid. }
  rewrite E. run_fetch. rewrite Hrows.
  destruct rows as [|r rows]; [destruct Hin|].
  now destruct (map_r_raises normalize_row (r :: rows) row e Hin Hbad) as (e' & ->).
Qed.

(** A row that lacks one of the seven columns cannot be normalised: the
    subscript raises (a [KeyError], unless an earlier cell already made
    [int()] raise). *)
Theorem missing_column_raises (row : gmap string atom) (col : string) :
  In col required_columns -> row !! col = None ->
  exists e, normalize_row row = Raise e.
Proof.
  intros Hin Hnone. unfold normalize_row, row_get.
  cbn in Hin.
  destruct Hin as [<- | [<- | [<- | [<- | [<- | [<- | [<- | []]]]]]]];
    repeat match goal with
    | |- context [row !! ?k] =>
        first [ rewrite Hnone; cbn [bind_r]
              | let c := fresh "cell" in
                destruct (row !! k) as [c|]; cbn [bind_r] ]
    | |- context [int_or_zero ?v] => destruct (int_or_zero v); cbn [bind_r]
    end; eauto.
Qed.

(** What every record that leaves the normaliser looks like: the name,
    vehicle id and publication date are the row's cells, make and model
    are never null, and year and mileage are integers. *)
Theorem normalized_record_invariant (row : gmap string atom) (c : car) :
  normalize_row row = Ok c ->
  row !! "sf_vehicle_name" = Some (sf_vehicle_name c) /\
  row !! "ajans_vehicle_id" = Some (ajans_vehicle_id c) /\
  row !! "published_at" = Some (published_at c) /\
  pd_isna (make c) = false /\
  pd_isna (model c) = false /\
  (exists y, year c = AInt y) /\
  (exists k, kilometers c = AInt k).
Proof.
  unfold normalize_row, row_get.
  destruct (row !! "sf_vehicle_name") as [name|]; [|discriminate].
  destruct (row !! "ajans_vehicle_id") as [vid|]; [|discriminate].
  destruct (row !! "car_make") as [mk|]; [|discriminate].
  destruct (row !! "car_model") as [md|]; [|discriminate].
  destruct (row !! "car_year") as [yr|]; [|discriminate].
  cbn [bind_r].
  destruct (int_or_zero yr) as [y|] eqn:Hy; [|discriminate]. cbn [bind_r].
  destruct (row !! "kilometrage") as [km|]; [|discriminate]. cbn [bind_r].
  destruct (int_or_zero km) as [k|] eqn:Hk; [|discriminate]. cbn [bind_r].
  destruct (row !! "published_at") as [pub|]; [|discriminate]. cbn [bind_r].
  intros [= <-]. cbn.
  assert (Hint : forall v a, int_or_zero v = Ok a -> exists z, a = AInt z).
  { intros v a. unfold int_or_zero.
    destruct (negb (pd_isna v)); [|intros [= <-]; eauto].
    destruct (py_int v); cbn; [intros [= <-]; eauto | discriminate]. }
  assert (Hname : forall v, pd_isna (or_unknown v) = false).
  { intros v. unfold or_unknown. now destruct (pd_isna v) eqn:E. }
  repeat split; auto; eapply Hint; eauto.
Qed.

(** The renderer's fallback is out of reach for a record that comes from
    the normaliser: its mileage is an integer, so [{kilometers:,}] always
    formats and the post is the filled template. *)
Theorem normalized_record_renders_template
    (row : gmap string atom) (c : car) (link : json) (w : world) :
  normalize_row row = Ok c ->
  exists k,
    kilometers c = AInt k /\
    generate_post_content c link w
      = (format_post_template (make c) (model c) (year c) (AInt k) link, w) /\
    exists s, format_post_template (make c) (model c) (year c) (AInt k) link = Ok s.
Proof.
  intros Hrow.
  assert (Hk : exists k, kilometers c = AInt k).
  { revert Hrow. unfold normalize_row, row_get.
    repeat match goal with
    | |- context [row !! ?key] => destruct (row !! key); cbn [bind_r]; [|discriminate]
    | |- context [int_or_zero ?v] =>
        let E := fresh "E" in destruct (int_or_zero v) eqn:E; cbn [bind_r]; [|discriminate]
    end.
    intros [= <-]. cbn.
    match goal with E : int_or_zero ?v = Ok ?a |- exists k, ?a = _ =>
      revert E; unfold int_or_zero;
      destruct (negb (pd_isna v)); [|intros [= <-]; eauto];
      destruct (py_int v); cbn; [intros [= <-]; eauto | discriminate]
    end. }
  destruct Hk as (k & Hk). exists k. split; [exact Hk|].
  unfold generate_post_content, try_except, lift, format_post_template.
  rewrite Hk. cbn. split; [reflexivity | eauto].
Qed.

(** *** Further properties: the posts of a batch *)

Lemma generate_post_content_any_world (c : car) (link : json) (s : string)
    (w w0 : world) :
  generate_post_content c link w = (Ok s, w) ->
  generate_post_content c link w0 = (Ok s, w0).
Proof.
  unfold generate_post_content, try_except, lift, ret.
  destruct (format_post_template _ _ _ _ _); now intros [= <-].
Qed.

Lemma process_car_kept_post (c : car) (acc : tally) (w : world) :
  skipped c = false ->
  exists p w',
    process_car c acc w =
      (Ok {| posts := posts acc ++ [p];
             successful_posts := S (successful_posts acc);
             failed_posts := failed_posts acc |}, w') /\
    post_of c p /\
    sent w' = link_request (clock w (ticks w)) (sf_vehicle_name c) (ajans_vehicle_id c)
              :: sent w /\
    page w' = page w /\ executed w' = executed w.
Proof.
  unfold skipped. intros H.
  apply orb_false_elim in H as [H Hid]. apply negb_false_iff in Hid.
  unfold process_car, try_except, bind. rewrite H, Hid. cbn [negb].
  destruct (create_tracking_link_returns_truthy (sf_vehicle_name c)
              (ajans_vehicle_id c) w) as (r & -> & Hr).
  destruct (generate_post_content_returns c r
              (after_link (sf_vehicle_name c) (ajans_vehicle_id c) w)) as (s & Hs).
  rewrite Hs. unfold datetime_now, ret. do 2 eexists.
  split; [reflexivity|]. split; [|repeat split].
  unfold post_of.
  cbn [post_car_id post_ajans_vehicle_id post_make post_model post_year
       post_kilometers post_tracking_link post_content].
  do 6 (split; [reflexivity|]). split; [exact Hr|].
  intros w0. now apply generate_post_content_any_world with (w := after_link
    (sf_vehicle_name c) (ajans_vehicle_id c) w).
Qed.

Lemma process_cars_posts (cars : list car) (acc : tally) (w : world) :
  exists new reqs w',
    process_cars cars acc w =
      (Ok {| posts := posts acc ++ new;
             successful_posts := successful_posts acc + length new;
             failed_posts := failed_posts acc + (length cars - length new) |}, w') /\
    Forall2 post_of (kept cars) new /\
    length new <= length cars /\
    sent w' = reqs ++ sent w /\
    length reqs = length new /\
    Forall is_link_request reqs /\
    page w' = page w /\ executed w' = executed w.
Proof.
  revert acc w; induction cars as [|c cars IH]; intros acc w.
  - exists [], [], w. cbn. rewrite app_nil_r, !Nat.add_0_r.
    destruct acc. repeat split; auto; constructor.
  - cbn [process_cars]. unfold bind, kept. cbn [List.filter].
    destruct (skipped c) eqn:Hskip; cbn [negb].
    + rewrite (process_car_skip c acc w (skipped_cases c Hskip)).
      destruct (IH (count_failure acc) w)
        as (new & reqs & w' & -> & Hp & Hle & Hs & Hn & Hurl & Hpage & Hex).
      exists new, reqs, w'.
      cbn [count_failure posts successful_posts failed_posts length].
      split; [do 2 f_equal; f_equal; lia|].
      repeat split; auto.
    + destruct (process_car_kept_post c acc w Hskip)
        as (p & w1 & -> & Hpost & Hsent & Hpage1 & Hex1).
      destruct (IH {| posts := posts acc ++ [p];
                      successful_posts := S (successful_posts acc);
                      failed_posts := failed_posts acc |} w1)
        as (new & reqs & w' & -> & Hp & Hle & Hs & Hn & Hurl & Hpage & Hex).
      exists (p :: new),
             (reqs ++ [link_request (clock w (ticks w)) (sf_vehicle_name c)
                         (ajans_vehicle_id c)]), w'.
      cbn [posts successful_posts failed_posts length].
      split; [rewrite <- app_assoc; cbn [app]; do 2 f_equal; f_equal; lia|].
      split; [now constructor|]. split; [lia|].
      split; [rewrite Hs, Hsent, <- app_assoc; reflexivity|].
      split; [rewrite length_app; cbn; lia|].
      split; [|split; congruence].
      apply Forall_app. split; [exact Hurl|]. constructor; [reflexivity | constructor].
Qed.

(** *** Further properties: [generate_posts] as a whole *)

Lemma get_flash_sale_cars_returns
    (self : generator) (custom_query : option string) (w : world) :
  exists cars w',
    get_flash_sale_cars self custom_query w = (Ok cars, w') /\ sent w' = sent w.
Proof.
  destruct (get_flash_sale_cars_cases self custom_query w)
    as [[Hcl E] | [(cl & m1 & m2 & Hcl & E) | (cl & q & Hcl & E)]]; rewrite E.
  - now exists [], w.
  - do 2 eexists. split; reflexivity.
  - destruct (fetch_cars_returns cl q w) as (cars & ->).
    exists cars, (log_query q w). split; reflexivity.
Qed.

Lemma generate_posts_run
    (self : generator) (custom_query : option string) (w : world) :
  exists cars w1 new reqs w2,
    get_flash_sale_cars self custom_query w = (Ok cars, w1) /\
    generate_posts self custom_query w = (Ok new, w2) /\
    Forall2 post_of (kept cars) new /\
    length new <= length cars /\
    sent w2 = reqs ++ sent w /\
    length reqs = length new /\
    Forall is_link_request reqs /\
    (cars = [] -> w2 = w1) /\
    (cars <> [] ->
     page w2 =
       (Info, "❌ Posts failed: " +:+ pretty (length cars - length new)) ::
       (Info, "✅ Posts generated successfully: " +:+ pretty (length new)) ::
       (Info, "🚗 Total flash sale cars found: " +:+ pretty (length cars)) :: page w1).
Proof.
  destruct (get_flash_sale_cars_returns self custom_query w)
    as (cars & w1 & Hfetch & Hsent1).
  exists cars, w1. unfold generate_posts, bind. rewrite Hfetch.
  destruct cars as [|c cars].
  - exists [], [], w1. unfold ret. cbn.
    repeat split; auto; try constructor. congruence.
  - destruct (process_cars_posts (c :: cars)
                {| posts := []; successful_posts := 0; failed_posts := 0 |} w1)
      as (new & reqs & w2 & -> & Hpost & Hle & Hs & Hn & Hurl & Hpage & Hex).
    exists new, reqs. eexists.
    unfold st_show, ret.
    cbn [posts successful_posts failed_posts app Nat.add].
    split; [reflexivity|]. split; [reflexivity|].
    split; [exact Hpost|]. split; [exact Hle|].
    split; [cbn; congruence|]. split; [exact Hn|]. split; [exact Hurl|].
    split; [discriminate|]. intros _. cbn. now rewrite Hpage.
Qed.

(** [generate_posts] never raises.  The posts it returns are, in order,
    one per fetched record that passes the skip policy, each with the
    record's fields, a populated link and the text rendered for that
    link; it sends one link request per post and nothing else.  With no
    fetched record it shows no summary; otherwise the summary reports the
    batch size, the number of posts and their difference. *)
Theorem generate_posts_batch
    (self : generator) (custom_query : option string) (w : world) :
  exists cars w1 new w2,
    get_flash_sale_cars self custom_query w = (Ok cars, w1) /\
    generate_posts self custom_query w = (Ok new, w2) /\
    Forall2 post_of (kept cars) new /\
    (exists reqs, sent w2 = reqs ++ sent w /\ length reqs = length new /\
                  Forall is_link_request reqs) /\
    (cars = [] -> new = [] /\ w2 = w1) /\
    (cars <> [] ->
     page w2 =
       (Info, "❌ Posts failed: " +:+ pretty (length cars - length new)) ::
       (Info, "✅ Posts generated successfully: " +:+ pretty (length new)) ::
       (Info, "🚗 Total flash sale cars found: " +:+ pretty (length cars)) :: page w1).
Proof.
  destruct (generate_posts_run self custom_query w)
    as (cars & w1 & new & reqs & w2 & Hf & Hg & Hp & Hle & Hs & Hn & Hu & He & Hne).
  exists cars, w1, new, w2. do 3 (split; [assumption|]).
  split; [eauto|]. split; [|exact Hne].
  intros ->. split; [|now apply He].
  cbn in Hle. destruct new; [reflexivity | cbn in Hle; lia].
Qed.

(** *** Further properties: start-up *)

(** The secrets come first and the file is only a fall-back: credentials
    found in the secrets are used whatever the file holds, and when the
    secrets are missing ([KeyError] or [FileNotFoundError]) those of the
    file are used.  [None] is returned exactly when the secrets are missing
    and the file is missing too.  Whenever the file is read, any exception
    it raises other than [FileNotFoundError] (a [KeyError], for instance)
    is not caught and propagates, and so does any exception of the secrets
    other than the two caught. *)
Theorem credentials_fallback_order (h : host) :
  (forall c, secrets_credentials h = inr c -> get_credentials h = inr (Some c)) /\
  (get_credentials h = inr None <->
   (exists m, secrets_credentials h = inl (SKeyError m) \/
              secrets_credentials h = inl (SFileNotFoundError m)) /\
   (exists m, file_credentials h = inl (SFileNotFoundError m))) /\
  (forall m c,
     secrets_credentials h = inl (SKeyError m) \/
     secrets_credentials h = inl (SFileNotFoundError m) ->
     file_credentials h = inr c ->
     get_credentials h = inr (Some c)) /\
  (forall m e,
     secrets_credentials h = inl (SKeyError m) \/
     secrets_credentials h = inl (SFileNotFoundError m) ->
     file_credentials h = inl e ->
     (forall m', e <> SFileNotFoundError m') ->
     get_credentials h = inl e) /\
  (forall m,
     secrets_credentials h = inl (SException m) ->
     get_credentials h = inl (SException m)).
Proof.
  unfold get_credentials. split; [|split; [|split; [|split]]].
  - now intros c ->.
  - split.
    + destruct (secrets_credentials h) as [[m|m|m]|c]; try discriminate;
        (destruct (file_credentials h) as [[m'|m'|m']|c']; try discriminate);
        intros _; split; eauto.
    + intros [(m & [-> | ->]) (m' & ->)]; reflexivity.
  - now intros m c [-> | ->] ->.
  - intros m e [-> | ->] -> Hne; (destruct e as [m'|m'|m']; [reflexivity | | reflexivity]);
      now destruct (Hne m').
  - now intros m ->.
Qed.

(** A generator that has been constructed always holds a client: the
    credentials were found in the secrets or in the file, the client was
    created from them, and [self.client] is that client. *)
Theorem constructed_generator_has_client (h : host) (g : generator) :
  init h = inr g ->
  exists c cl,
    (secrets_credentials h = inr c \/ file_credentials h = inr c) /\
    new_client h c = inr cl /\
    client g = Some cl.
Proof.
  unfold init, _get_bigquery_client, get_credentials.
  destruct (secrets_credentials h) as [[m|m|m]|c] eqn:Hs; try discriminate.
  1,2: destruct (file_credentials h) as [[m'|m'|m']|c] eqn:Hf; try discriminate.
  all: destruct (new_client h c) as [e|cl] eqn:Hc; try discriminate;
    intros [= <-]; exists c, cl; auto.
Qed.

(** The constructor raises exactly when no client could be obtained, and
    then either passes on the exception met while loading the credentials
    or raises its own ["BigQuery client initialization failed"]; the
    exception of a failed client creation is never passed on. *)
Theorem constructor_failure (h : host) (e : startup_exn) :
  init h = inl e ->
  secrets_credentials h = inl e \/ file_credentials h = inl e \/
  e = SException "BigQuery client initialization failed".
Proof.
  unfold init, _get_bigquery_client, get_credentials.
  destruct (secrets_credentials h) as [[m|m|m]|c] eqn:Hs.
  1,2: destruct (file_credentials h) as [[m'|m'|m']|c] eqn:Hf.
  all: try (destruct (new_client h c) as [e'|cl]); intros [= <-]; auto.
Qed.

(** *** Further properties: the whole run *)

Lemma send_posts_to_webhook_returns (p : post) (ps : list post) (w : world) :
  exists b,
    send_posts_to_webhook (p :: ps) w =
      (Ok b, push_request
               (webhook_request (build_payload (p :: ps) (isoformat (clock w (ticks w)))))
               (tick w)).
Proof.
  run_send. destruct (network w _) as [resp|e].
  - destruct (existsb _ _); eauto.
  - destruct (is_Timeout e), (is_RequestException e); eauto.
Qed.

Lemma run_after_init (h : host) (g : generator) (w : world) :
  init h = inr g ->
  exists new w1 delivered w2,
    generate_posts g (session_custom_query h) w = (Ok new, w1) /\
    run_flash_sale_generation h w =
      (Ok {| success := true; result_posts := new; webhook_success := delivered;
             total_posts := length new; error := None |}, w2) /\
    match new with
    | [] => delivered = false /\ w2 = w1
    | _ => send_posts_to_webhook new w1 = (Ok delivered, w2)
    end.
Proof.
  intros Hinit. unfold run_flash_sale_generation. rewrite Hinit.
  destruct (generate_posts_run g (session_custom_query h) w)
    as (cars & w0 & new & reqs & w1 & _ & Hg & _).
  unfold try_except, bind. rewrite Hg.
  destruct new as [|p ps].
  - exists [], w1, false, w1. unfold ret. auto.
  - destruct (send_posts_to_webhook_returns p ps w1) as (b & Hb).
    rewrite Hb. unfold ret. exists (p :: ps), w1, b. eexists.
    split; [reflexivity|]. split; [reflexivity|]. exact Hb.
Qed.

(** [run_flash_sale_generation] never raises.  It reports success exactly
    when the generator could be constructed; a failed construction leaves
    the world untouched and yields no posts, no delivery and the
    exception's message.  The post count is always the length of the
    post list, a run without posts never reports a delivery, and a
    successful run carries no error. *)
Theorem run_result_shape (h : host) (w : world) :
  exists r w',
    run_flash_sale_generation h w = (Ok r, w') /\
    total_posts r = length (result_posts r) /\
    (success r = true <-> exists g, init h = inr g) /\
    (success r = true -> error r = None) /\
    (forall e, init h = inl e ->
       r = failure (startup_str e) /\ w' = w) /\
    (result_posts r = [] -> webhook_success r = false).
Proof.
  destruct (init h) as [e|g] eqn:Hinit.
  - exists (failure (startup_str e)), w.
    unfold run_flash_sale_generation. rewrite Hinit. cbn.
    split; [reflexivity|]. split; [reflexivity|].
    split; [split; [discriminate | intros [g Hg]; discriminate]|].
    split; [discriminate|]. split; [now intros e' [= <-]|reflexivity].
  - destruct (run_after_init h g w Hinit) as (new & w1 & b & w2 & Hg & Hrun & Hsend).
    do 2 eexists. split; [exact Hrun|]. cbn.
    split; [reflexivity|]. split; [split; eauto|].
    split; [reflexivity|]. split; [discriminate|].
    intros ->. now destruct Hsend.
Qed.

(** On a constructed generator the run returns the posts that
    [generate_posts] produced, whether or not the delivery succeeded.  It
    sends one link request per post and, only when there is at least one
    post, one webhook request after them, whose payload counts the posts
    returned; the delivery flag is the dispatcher's answer. *)
Theorem run_delivers_once (h : host) (g : generator) (w : world) :
  init h = inr g ->
  exists r w1 w2 reqs,
    run_flash_sale_generation h w = (Ok r, w2) /\
    generate_posts g (session_custom_query h) w = (Ok (result_posts r), w1) /\
    length reqs = total_posts r /\
    Forall is_link_request reqs /\
    match result_posts r with
    | [] => sent w2 = sent w /\ webhook_success r = false
    | _ =>
        exists payload,
          sent w2 = webhook_request payload :: reqs ++ sent w /\
          payload = build_payload (result_posts r) (isoformat (clock w1 (ticks w1))) /\
          fst (send_posts_to_webhook (result_posts r) w1) = Ok (webhook_success r)
    end.
Proof.
  intros Hinit.
  destruct (run_after_init h g w Hinit) as (new & w1 & b & w2 & Hg & Hrun & Hsend).
  destruct (generate_posts_run g (session_custom_query h) w)
    as (cars & w0 & new' & reqs & w1' & _ & Hg' & _ & _ & Hs & Hn & Hu & _).
  rewrite Hg in Hg'. injection Hg' as <- <-.
  eexists. exists w1, w2, reqs. split; [exact Hrun|]. cbn.
  split; [exact Hg|]. split; [exact Hn|]. split; [exact Hu|].
  destruct new as [|p ps].
  - destruct Hsend as [-> ->]. destruct reqs; [|discriminate].
    split; [exact Hs | reflexivity].
  - destruct (send_posts_to_webhook_returns p ps w1) as (b' & Hb).
    rewrite Hsend in Hb. injection Hb as <- ->.
    eexists. split; [cbn; now rewrite Hs|]. split; [reflexivity|].
    now rewrite Hsend.
Qed.

(** *** Further properties: validation *)

Lemma missing_iff (query c : string) :
  In c (snd (validate_query_columns query)) <->
  In c required_columns /\
  Str.contains (Str.lower c) (Str.lower query) = false.
Proof.
  unfold validate_query_columns. rewrite append_loop_filter, app_nil_l.
  cbn [snd]. rewrite filter_In, negb_true_iff. reflexivity.
Qed.

Lemma valid_iff (query : string) :
  fst (validate_query_columns query) = true <->
  snd (validate_query_columns query) = [].
Proof.
  unfold validate_query_columns. cbn [fst snd].
  rewrite Nat.eqb_eq. apply length_zero_iff_nil.
Qed.

Lemma contains_embedded (sub pre s post : string) :
  Str.contains sub s = true -> Str.contains sub (pre +:+ s +:+ post) = true.
Proof.
  rewrite !contains_app. intros (a & b & ->).
  exists (pre +:+ a), (b +:+ post). now rewrite !app_assoc_str.
Qed.

Lemma is_ascii_app (a b : string) :
  is_ascii (a +:+ b) = is_ascii a && is_ascii b.
Proof.
  induction a as [|c a IH]; [reflexivity|].
  change (String c a +:+ b) with (String c (a +:+ b)). cbn [is_ascii].
  now rewrite IH, andb_assoc.
Qed.

(** On ASCII text the column check only ever looks for the names in the
    text, so ASCII text added around a query (a comment, another clause)
    can only make more names count as present: every column missing from
    the longer text is missing from the query inside it, a query that
    passes keeps passing, and any text passes once the seven names are
    appended to it. *)
Theorem validation_is_monotone (pre query post : string) :
  is_ascii pre = true -> is_ascii query = true -> is_ascii post = true ->
  (forall c, In c (snd (validate_query_columns (pre +:+ query +:+ post))) ->
             In c (snd (validate_query_columns query))) /\
  (fst (validate_query_columns query) = true ->
   fst (validate_query_columns (pre +:+ query +:+ post)) = true) /\
  fst (validate_query_columns
         (query +:+ " -- " +:+ Str.join ", " required_columns)) = true.
Proof.
  assert (Hmono : forall a q b c,
            is_ascii a = true -> is_ascii q = true -> is_ascii b = true ->
            In c (snd (validate_query_columns (a +:+ q +:+ b))) ->
            In c (snd (validate_query_columns q))).
  { intros a q b c Ha Hq Hb. rewrite !missing_iff. intros [Hin Hno].
    split; [exact Hin|].
    assert (Habq : is_ascii (a +:+ q +:+ b) = true)
      by now rewrite !is_ascii_app, Ha, Hq, Hb.
    rewrite (lower_ascii _ Habq) in Hno. rewrite (lower_ascii _ Hq).
    destruct (Str.contains (Str.lower c) (ascii_lower q)) eqn:E; [|reflexivity].
    rewrite !ascii_lower_app in Hno.
    now rewrite (contains_embedded _ (ascii_lower a) _ (ascii_lower b) E) in Hno. }
  intros Hpre Hquery Hpost.
  split; [intros c; now apply Hmono|]. split.
  - rewrite !valid_iff. intros Hq.
    destruct (snd (validate_query_columns (pre +:+ query +:+ post))) as [|c l] eqn:E;
      [reflexivity|].
    assert (Hc : In c (snd (validate_query_columns query))).
    { apply (Hmono pre query post); [assumption..|]. rewrite E. now left. }
    rewrite Hq in Hc. destruct Hc.
  - rewrite valid_iff.
    destruct (snd (validate_query_columns _)) as [|c l] eqn:E; [reflexivity|].
    assert (Hc : In c (snd (validate_query_columns
                              (Str.join ", " required_columns)))).
    { apply (Hmono (query +:+ " -- ") _ "").
      - now rewrite is_ascii_app, Hquery.
      - reflexivity.
      - reflexivity.
      - rewrite app_empty_str, app_assoc_str, E. now left. }
    vm_compute in Hc. destruct Hc.
Qed.

(** *** Further properties: the grouped mileage *)

Lemma remove_commas_comma (x : string) :
  remove_commas ("," +:+ x) = remove_commas x.
Proof.
  change ("," +:+ x) with (String "," x). cbn [remove_commas].
  now destruct (ascii_dec "," ",").
Qed.

Lemma remove_commas_group_digits (s : string) :
  remove_commas (group_digits s) = remove_commas s.
Proof.
  induction s as [|c s IH]; [reflexivity|].
  cbn [group_digits]. cbv zeta.
  destruct ((0 <? String.length s)%nat && (String.length s mod 3 =? 0)%nat);
    cbn [remove_commas]; rewrite ?remove_commas_comma, IH; reflexivity.
Qed.

Lemma pretty_N_char_not_comma (x : N) : pretty_N_char x <> ","%char.
Proof. unfold pretty_N_char. repeat case_match; discriminate. Qed.

Lemma pretty_N_go_no_comma (x : N) (s : string) :
  remove_commas s = s -> remove_commas (pretty_N_go x s) = pretty_N_go x s.
Proof.
  revert s. induction (N.lt_wf_0 x) as [x _ IH]. intros s Hs.
  destruct (N.eq_dec x 0%N) as [->|Hx].
  - now rewrite pretty_N_go_0.
  - rewrite pretty_N_go_step by lia.
    apply IH; [apply N.div_lt; lia|].
    cbn [remove_commas].
    destruct (ascii_dec (pretty_N_char (x `mod` 10)) ",") as [E|_];
      [now apply pretty_N_char_not_comma in E | now rewrite Hs].
Qed.

Lemma pretty_positive_no_comma (p : positive) :
  remove_commas (pretty p) = pretty p.
Proof.
  unfold pretty, pretty_positive, pretty, pretty_N.
  destruct (decide (N.pos p = 0%N)); [discriminate|].
  now apply pretty_N_go_no_comma.
Qed.

(** The commas of [{kilometers:,}] are pure decoration: with the commas
    removed, the grouped rendering of an integer is its plain decimal
    rendering, sign included. *)
Theorem grouped_mileage_round_trip (z : Z) :
  remove_commas (format_int_grouped z) = pretty z.
Proof.
  destruct z as [|p|p]; cbn [format_int_grouped].
  - reflexivity.
  - rewrite remove_commas_group_digits. apply pretty_positive_no_comma.
  - change ("-" +:+ group_digits (pretty p)) with (String "-" (group_digits (pretty p))).
    cbn [remove_commas]. destruct (ascii_dec "-" ","); [discriminate|].
    rewrite remove_commas_group_digits, pretty_positive_no_comma. reflexivity.
Qed.

(** *** Further properties: link names *)

Lemma two_digits_check :
  forallb (fun a =>
    Nat.eqb (String.length (Str.zfill 2 a)) 2 &&
    forallb (fun b => negb (String.eqb (Str.zfill 2 a) (Str.zfill 2 b)) || Nat.eqb a b)
            (seq 0 100))
    (seq 0 100) = true.
Proof. vm_compute. reflexivity. Qed.

Lemma four_digits_check :
  forallb (fun y => Nat.eqb (String.length (pretty y)) 4)
          (seq 1000 (Z.to_nat 9000)) = true.
Proof. vm_compute. reflexivity. Qed.

Lemma zfill2_length (n : nat) : n <= 99 -> String.length (Str.zfill 2 n) = 2.
Proof.
  intros Hn. pose proof two_digits_check as H.
  rewrite forallb_forall in H. specialize (H n).
  rewrite andb_true_iff, Nat.eqb_eq in H. apply H, in_seq. lia.
Qed.

Lemma zfill2_inj (a b : nat) :
  a <= 99 -> b <= 99 -> Str.zfill 2 a = Str.zfill 2 b -> a = b.
Proof.
  intros Ha Hb E. pose proof two_digits_check as H.
  rewrite forallb_forall in H. specialize (H a).
  rewrite andb_true_iff, forallb_forall in H. destruct H as [_ H]; [apply in_seq; lia|].
  specialize (H b). rewrite orb_true_iff, negb_true_iff, Nat.eqb_eq in H.
  destruct H as [H | H]; [apply in_seq; lia | | exact H].
  apply String.eqb_neq in H. contradiction.
Qed.

Lemma zfill4_year (y : nat) :
  (1000 <= Z.of_nat y <= 9999)%Z ->
  Str.zfill 4 y = pretty y /\ String.length (Str.zfill 4 y) = 4.
Proof.
  intros Hy. pose proof four_digits_check as H.
  rewrite forallb_forall in H. specialize (H y).
  rewrite Nat.eqb_eq in H.
  assert (Hlen : String.length (pretty y) = 4) by (apply H, in_seq; lia).
  unfold Str.zfill. rewrite Hlen. split; [reflexivity | exact Hlen].
Qed.

Lemma strftime_Ymd_length (t : datetime) :
  calendar_date (dt_date t) -> String.length (strftime_Ymd t) = 8.
Proof.
  intros (Hy & Hm & Hd). unfold strftime_Ymd.
  rewrite !length_app_str, (proj2 (zfill4_year _ Hy)),
    (zfill2_length _ Hm), (zfill2_length _ Hd). reflexivity.
Qed.

Lemma strftime_Ymd_inj (t1 t2 : datetime) :
  calendar_date (dt_date t1) -> calendar_date (dt_date t2) ->
  strftime_Ymd t1 = strftime_Ymd t2 -> dt_date t1 = dt_date t2.
Proof.
  intros (Hy1 & Hm1 & Hd1) (Hy2 & Hm2 & Hd2). unfold strftime_Ymd. intros E.
  apply app_inj_length in E as [Ey E];
    [|now rewrite (proj2 (zfill4_year _ Hy1)), (proj2 (zfill4_year _ Hy2))].
  apply app_inj_length in E as [Em Ed];
    [|now rewrite (zfill2_length _ Hm1), (zfill2_length _ Hm2)].
  rewrite (proj1 (zfill4_year _ Hy1)), (proj1 (zfill4_year _ Hy2)) in Ey.
  apply (inj pretty) in Ey.
  apply zfill2_inj in Em; [|assumption..].
  apply zfill2_inj in Ed; [|assumption..].
  destruct (dt_date t1), (dt_date t2). cbn in *. congruence.
Qed.

(** Link names do not collide: on calendar dates (four-digit years), two
    link requests for named vehicles ask for the same link name only if
    they are made on the same day for the same vehicle name.  Every link
    request carries a link name and its deep link ends in the vehicle id. *)
Theorem link_names_do_not_collide
    (t1 t2 : datetime) (name1 name2 : string) (id1 id2 : atom) :
  calendar_date (dt_date t1) -> calendar_date (dt_date t2) ->
  request_link_name (link_request t1 (AStr name1) id1)
    = request_link_name (link_request t2 (AStr name2) id2) ->
  dt_date t1 = dt_date t2 /\ name1 = name2.
Proof.
  intros H1 H2. unfold request_link_name, link_request. cbn [req_json link_name].
  intros E. injection E as E.
  change (strftime_Ymd t1 +:+ "-" +:+ name1 = strftime_Ymd t2 +:+ "-" +:+ name2) in E.
  apply app_inj_length in E as [Ed En];
    [|now rewrite !strftime_Ymd_length].
  split; [now apply strftime_Ymd_inj|].
  now apply (inj (String.append "-")) in En.
Qed.

(** *** Further properties: which key wins, and a rejected query *)

(** First match wins: on a 200 response with a JSON object, the client
    returns the first truthy value among those under [tracking_link],
    [link] and [url], in that order (an absent key counts as [None]), and
    the fallback when there is none. *)
Theorem first_truthy_key_wins
    (v id : atom) (w : world) (resp : response) (d : gmap string json) :
  link_outcome v id w = Ok resp ->
  status_code resp = 200%Z ->
  resp_json resp = Some (JObj d) ->
  fst (create_tracking_link v id w) =
    Ok (default FALLBACK_LINK
          (List.find truthy
             [dict_get d "tracking_link"; dict_get d "link"; dict_get d "url"])).
Proof.
  intros Hout Hs Hj.
  rewrite (create_tracking_link_object _ _ _ _ _ Hout Hs Hj).
  cbn [fst List.find]. cbv zeta. unfold py_or.
  destruct (truthy (dict_get d "tracking_link")) eqn:E1.
  { repeat (rewrite E1; cbv iota). reflexivity. }
  destruct (truthy (dict_get d "link")) eqn:E2.
  { repeat (rewrite E2; cbv iota). reflexivity. }
  destruct (truthy (dict_get d "url")) eqn:E3; reflexivity.
Qed.

Lemma init_client (h : host) (g : generator) :
  init h = inr g -> exists cl, client g = Some cl.
Proof.
  unfold init. destruct (_get_bigquery_client h) as [e|[cl|]]; try discriminate.
  intros [= <-]. eauto.
Qed.

(** A custom query kept in the session that fails the column check ends
    the run quietly: the run succeeds with no post and no delivery, the
    two validation errors are shown, and neither the warehouse nor any
    HTTP endpoint is contacted. *)
Theorem rejected_session_query_ends_quietly
    (h : host) (g : generator) (q : string) (w : world) :
  init h = inr g ->
  session_custom_query h = Some q ->
  q <> "" ->
  fst (validate_query_columns q) = false ->
  exists w',
    run_flash_sale_generation h w =
      (Ok {| success := true; result_posts := []; webhook_success := false;
             total_posts := 0; error := None |}, w') /\
    sent w' = sent w /\ executed w' = executed w /\ ticks w' = ticks w /\
    page w' =
      (Error, "Please ensure your query returns all required columns with exact names.") ::
      (Error, "❌ Custom query is missing required columns: " +:+ Str.join ", " (snd (validate_query_columns q))) ::
      page w.
Proof.
  intros Hinit Hq Hne Hinvalid.
  destruct (init_client h g Hinit) as (cl & Hcl).
  unfold run_flash_sale_generation. rewrite Hinit, Hq.
  unfold try_except, bind, generate_posts, bind, get_flash_sale_cars.
  rewrite Hcl.
  destruct (String.eqb_spec q "") as [->|_]; [contradiction|]. cbn [negb].
  destruct (validate_query_columns q) as [valid missing].
  cbn [fst snd] in *. rewrite Hinvalid. cbn [negb].
  unfold st_show, ret. eexists. split; [reflexivity|].
  repeat split.
Qed.

End Generator.

(** ** Closed examples *)

(** C1, counterexample: a 200 response whose body is
    [{"tracking_link": ""}] does not make the client return [""], it
    returns the fallback; and on [{"tracking_link": 5}] the client returns
    the integer [5], which is not a string. *)
Lemma tracking_link_value_not_always_returned :
  fst (create_tracking_link unused_str (AStr "ABC123") (AStr "v1")
         (fresh_world sample_morning
            (answering 200 (Some (JObj {[ "tracking_link" := JAtom (AStr "") ]})))))
    = Ok (JAtom (AStr "elajans.link")) /\
  JAtom (AStr "elajans.link") <> JAtom (AStr "") /\
  fst (create_tracking_link unused_str (AStr "ABC123") (AStr "v1")
         (fresh_world sample_morning
            (answering 200 (Some (JObj {[ "tracking_link" := JAtom (AInt 5) ]})))))
    = Ok (JAtom (AInt 5)) /\
  ~ is_str (JAtom (AInt 5)).
Proof.
  split; [vm_compute; reflexivity|]. split; [discriminate|].
  split; [vm_compute; reflexivity|]. intros [s Hs]. discriminate.
Qed.

(** C1, witness: the service answers 200 with a link under
    [tracking_link]; that link is returned. *)
Lemma create_tracking_link_total_witness :
  fst (create_tracking_link unused_str (AStr "ABC123") (AStr "v1")
         (fresh_world sample_morning
            (answering 200
               (Some (JObj {[ "tracking_link" := JAtom (AStr "https://t.co/1") ]})))))
    = Ok (JAtom (AStr "https://t.co/1")).
Proof.
  destruct (create_tracking_link_total unused_str (AStr "ABC123") (AStr "v1")
              (fresh_world sample_morning
                 (answering 200
                    (Some (JObj {[ "tracking_link" := JAtom (AStr "https://t.co/1") ]})))))
    as (r & Hrun & _ & _ & _ & Hobj).
  rewrite Hrun. cbn [fst]. f_equal.
  apply (Hobj _ _ eq_refl eq_refl eq_refl); [reflexivity | discriminate].
Defined.

(** C10, witness: [tracking_link] is present but empty, [link] holds a
    link; the client returns the latter. *)
Lemma falsy_tracking_link_witness :
  fst (create_tracking_link unused_str (AStr "ABC123") (AStr "v1")
         (fresh_world sample_morning
            (answering 200
               (Some (JObj (<["tracking_link" := JAtom (AStr "")]>
                              {[ "link" := JAtom (AStr "https://t.co/1") ]}))))))
    = Ok (JAtom (AStr "https://t.co/1")).
Proof.
  pose proof (falsy_tracking_link_falls_through unused_str (AStr "ABC123") (AStr "v1")
                (fresh_world sample_morning
                   (answering 200
                      (Some (JObj (<["tracking_link" := JAtom (AStr "")]>
                                     {[ "link" := JAtom (AStr "https://t.co/1") ]})))))
                {| status_code := 200; text := "";
                   resp_json :=
                     Some (JObj (<["tracking_link" := JAtom (AStr "")]>
                                   {[ "link" := JAtom (AStr "https://t.co/1") ]})) |}
                (<["tracking_link" := JAtom (AStr "")]>
                   {[ "link" := JAtom (AStr "https://t.co/1") ]})
                (JAtom (AStr ""))) as H.
  rewrite H; vm_compute; reflexivity.
Defined.

(** C9, witness: on 7 March 2025 the link name asked for vehicle
    [ABC123] is [flashsale-20250307-ABC123]; a morning call and an evening
    call of that day, for different vehicle ids, carry the same link
    name. *)
Lemma link_name_witness :
  (exists p,
     sent (snd (create_tracking_link unused_str (AStr "ABC123") (AStr "v1")
                  (fresh_world sample_morning (answering 500 None))))
       = [{| req_url := "https://hi.nonito.xyz/create_tracking_link";
             req_json := LinkBody p; req_headers := []; req_timeout := 30 |}] /\
     link_name p = "flashsale-20250307-ABC123") /\
  (exists p1 p2,
    req_json <$> head (sent (snd (create_tracking_link unused_str (AStr "ABC123")
                                    (AStr "v1")
                                    (fresh_world sample_morning (answering 500 None)))))
      = Some (LinkBody p1) /\
    req_json <$> head (sent (snd (create_tracking_link unused_str (AStr "ABC123")
                                    (AStr "v2")
                                    (fresh_world sample_evening (answering 200 None)))))
      = Some (LinkBody p2) /\
    link_name p1 = link_name p2).
Proof.
  split.
  - assert (Hday : calendar_date
                     (dt_date (clock (fresh_world sample_morning (answering 500 None))
                                 (ticks (fresh_world sample_morning (answering 500 None)))))).
    { unfold calendar_date, sample_morning, fresh_world.
      cbn [clock ticks dt_date d_year d_month d_day]. repeat split; lia. }
    destruct (proj1 (link_name_per_vehicle_per_day unused_str "ABC123")
                (AStr "v1") (fresh_world sample_morning (answering 500 None)) Hday)
      as (p & Hsent & Hname).
    exists p. split; [exact Hsent|]. rewrite Hname. reflexivity.
  - exact (proj2 (link_name_per_vehicle_per_day unused_str "ABC123")
             (AStr "v1") (AStr "v2")
             (fresh_world sample_morning (answering 500 None))
             (fresh_world sample_evening (answering 200 None)) eq_refl).
Defined.

(** C7, witness: the record of the end-to-end scenario renders as the four
    lines of the template, with its mileage grouped by thousands and the
    link at the end; so does a mileage of seven digits; and a mileage that
    is a string gives the one-line fallback. *)
Lemma generate_post_content_witness :
  generate_post_content unused_str unused_str unused_str
    (corolla (AInt 50000)) (JAtom (AStr "https://t.co/1"))
    (fresh_world sample_morning (answering 200 None))
  = (Ok "🚗 Toyota Corolla - 2020 - 50,000 كم
دلوقتي نزلت على التطبيق بسعر خاص لمدة 36 ساعة بس!
📋 التقرير المفصل متوفر على التطبيق.
📲 شوفها هنا: https://t.co/1",
     fresh_world sample_morning (answering 200 None)) /\
  generate_post_content unused_str unused_str unused_str
    (corolla (AInt 1234567)) (JAtom (AStr "https://t.co/1"))
    (fresh_world sample_morning (answering 200 None))
  = (Ok "🚗 Toyota Corolla - 2020 - 1,234,567 كم
دلوقتي نزلت على التطبيق بسعر خاص لمدة 36 ساعة بس!
📋 التقرير المفصل متوفر على التطبيق.
📲 شوفها هنا: https://t.co/1",
     fresh_world sample_morning (answering 200 None)) /\
  generate_post_content unused_str unused_str unused_str
    (corolla (AStr "n/a")) (JAtom (AStr "https://t.co/1"))
    (fresh_world sample_morning (answering 200 None))
  = (Ok "🔥 Flash Sale! Toyota Corolla 2020 - https://t.co/1",
     fresh_world sample_morning (answering 200 None)).
Proof.
  pose proof (generate_post_content_never_raises unused_str unused_str unused_str)
    as (_ & Hfill & Hfall).
  split; [|split].
  - destruct (Hfill (corolla (AInt 50000)) "Toyota" "Corolla" 2020%Z 50000%Z
                "https://t.co/1" (fresh_world sample_morning (answering 200 None))
                eq_refl eq_refl eq_refl eq_refl) as (km & Hkm & Hrun).
    rewrite Hrun.
    rewrite (thousands_grouped_unique _ _ _ Hkm
               (grouped_more 50000 _ ltac:(discriminate)
                  (grouped_last 50 eq_refl))).
    reflexivity.
  - destruct (Hfill (corolla (AInt 1234567)) "Toyota" "Corolla" 2020%Z 1234567%Z
                "https://t.co/1" (fresh_world sample_morning (answering 200 None))
                eq_refl eq_refl eq_refl eq_refl) as (km & Hkm & Hrun).
    rewrite Hrun.
    rewrite (thousands_grouped_unique _ _ _ Hkm
               (grouped_more 1234567 _ ltac:(discriminate)
                  (grouped_more 1234 _ ltac:(discriminate)
                     (grouped_last 1 eq_refl)))).
    reflexivity.
  - rewrite (Hfall (corolla (AStr "n/a")) "Toyota" "Corolla" 2020%Z
               "https://t.co/1" (fresh_world sample_morning (answering 200 None))
               eq_refl eq_refl eq_refl (or_intror (ex_intro _ "n/a" eq_refl))).
    reflexivity.
Defined.



(** C5, witness: one post sent at 23:59:59 and 250 microseconds on 7 March
    2025. *)
Lemma webhook_payload_witness :
  exists payload,
    head (sent (snd (send_posts_to_webhook [sample_post]
                       (fresh_world sample_evening (answering 200 None)))))
      = Some (webhook_request payload) /\
    payload !! "total_count" = Some (PvInt 1) /\
    payload !! "generated_at" = Some (PvStr "2025-03-07T23:59:59.000250") /\
    payload !! "source" = Some (PvStr "flash_sale_posts_generator") /\
    payload !! "post_1" = Some (PvPost sample_post) /\
    size payload = 4.
Proof.
  pose proof (webhook_payload_is_flat sample_post []
                (fresh_world sample_evening (answering 200 None))) as H.
  cbv zeta in H.
  destruct H as (Hsent & _ & Hcount & Hat & Hiso & Hsource & Hposts & _ & Hsize).
  eexists. split; [exact Hsent|].
  split; [exact Hcount|]. split; [|split; [exact Hsource|split; [|exact Hsize]]].
  - rewrite Hat, Hiso; [reflexivity|].
    unfold valid_datetime, sample_evening, fresh_world.
    cbn [clock ticks dt_date d_year d_month d_day dt_hour dt_minute dt_second
         dt_microsecond].
    repeat split; lia.
  - exact (Hposts 0 sample_post eq_refl).
Defined.

(** C2, witness: a record with an unknown make and a record without a
    vehicle id are both counted as failures; nothing is sent. *)
Lemma skipped_record_witness :
  process_cars unused_str unused_str unused_str
    [toyota (AStr "v1") (AStr "Unknown"); toyota (AStr "") (AStr "Toyota")]
    {| posts := []; successful_posts := 0; failed_posts := 0 |}
    (fresh_world sample_morning (answering 200 None))
  = (Ok {| posts := []; successful_posts := 0; failed_posts := 2 |},
     fresh_world sample_morning (answering 200 None)).
Proof.
  etransitivity.
  { exact (proj2 (skipped_record_counts_as_failure unused_str unused_str unused_str
                    (toyota (AStr "v1") (AStr "Unknown"))
                    [toyota (AStr "") (AStr "Toyota")]
                    {| posts := []; successful_posts := 0; failed_posts := 0 |}
                    (fresh_world sample_morning (answering 200 None))
                    (or_introl eq_refl))). }
  etransitivity.
  { exact (proj2 (skipped_record_counts_as_failure unused_str unused_str unused_str
                    (toyota (AStr "") (AStr "Toyota")) []
                    {| posts := []; successful_posts := 0; failed_posts := 1 |}
                    (fresh_world sample_morning (answering 200 None))
                    (or_intror (or_intror eq_refl)))). }
  reflexivity.
Defined.

(** C6, counterexample: a row whose year is the float [+inf] is not
    truncated to an integer: the conversion raises, and the fetch of a
    one-row dataframe holding that row comes back empty. *)
Lemma infinite_year_is_not_truncated :
  normalize_row unused_int (toyota_row (AFloat (S754_infinity false)))
    = Raise OverflowError /\
  fst (get_flash_sale_cars unused_int
         (warehouse [toyota_row (AFloat (S754_infinity false))]) None
         (fresh_world sample_morning (answering 200 None)))
    = Ok [].
Proof. split; vm_compute; reflexivity. Qed.

(** C6, witness: the row of the end-to-end scenario, with the year as the
    float [2020.5] and the mileage as the float [50000.5]. *)
Lemma normalization_witness :
  normalize_row unused_int (toyota_row (AFloat (S754_finite false 4041 (-1))))
  = Ok (toyota (AStr "v1") (AStr "Toyota")).
Proof.
  pose proof (proj1 (normalization_of_rows unused_int)
                (toyota_row (AFloat (S754_finite false 4041 (-1))))
                (AStr "ABC123") (AStr "v1") (AStr "Toyota") (AStr "Corolla")
                (AFloat (S754_finite false 4041 (-1)))
                (AFloat (S754_finite false 100001 (-1)))
                (ADate {| d_year := 2025; d_month := 3; d_day := 7 |})
                2020%Z 50000%Z) as H.
  rewrite H; vm_compute; reflexivity.
Defined.

(** C8, counterexample: the empty string fails the column check, yet
    passing it as the custom query reports nothing, runs the built-in
    query and returns that query's cars. *)
Lemma empty_custom_query_runs_default_query :
  fst (validate_query_columns "") = false /\
  get_flash_sale_cars unused_int (warehouse [toyota_row (AInt 2020)]) (Some "")
    (fresh_world sample_morning (answering 200 None))
  = (Ok [toyota (AStr "v1") (AStr "Toyota")],
     {| clock := fun _ => sample_morning; ticks := 0;
        network := answering 200 None; sent := [];
        executed := [DEFAULT_QUERY]; page := [] |}).
Proof. split; vm_compute; reflexivity. Qed.

(** C8, witness: a custom query that names two of the seven columns is
    reported and not run. *)
Lemma invalid_custom_query_witness :
  get_flash_sale_cars unused_int (warehouse [toyota_row (AInt 2020)])
    (Some "SELECT car_make, car_model FROM cars")
    (fresh_world sample_morning (answering 200 None))
  = (Ok [],
     {| clock := fun _ => sample_morning; ticks := 0;
        network := answering 200 None; sent := []; executed := [];
        page :=
          [(Error, "Please ensure your query returns all required columns with exact names.");
           (Error, "❌ Custom query is missing required columns: sf_vehicle_name, ajans_vehicle_id, published_at, car_year, kilometrage")] |}).
Proof.
  pose proof (invalid_custom_query_is_not_run unused_int
                (warehouse [toyota_row (AInt 2020)])
                (fun _ => Ok [toyota_row (AInt 2020)])
                (fresh_world sample_morning (answering 200 None)) eq_refl) as [H _].
  destruct (H "SELECT car_make, car_model FROM cars") as [Hrun _];
    [discriminate | vm_compute; reflexivity |].
  rewrite Hrun. vm_compute. reflexivity.
Defined.

(** ** Lower case *)

(** [str.lower] on a few texts: ASCII capitals; the Kelvin sign, lowered
    to the letter k; the long s, which is a small letter already; the
    capital sigma, lowered to the final sigma at the end of a word and to
    the medial one elsewhere; the capital I with a dot, lowered to the
    letter i and a combining dot. *)
Example lower_cases :
  Str.lower "SELECT Car_Make FROM T1" = "select car_make from t1" /\
  Str.lower KELVIN_SIGN = "k" /\
  Str.lower LONG_S = LONG_S /\
  Str.lower "ΟΔΥΣΣΕΥΣ ΣΑ" = "οδυσσευς σα" /\
  Str.lower (String (ascii_of_nat 196) (String (ascii_of_nat 176) ""))
    = String "i" (String (ascii_of_nat 204) (String (ascii_of_nat 135) "")).
Proof. vm_compute. repeat split; reflexivity. Qed.

(** ** End-to-end scenarios *)

(** One row, the link service answers [{"link": ...}]: one post, whose
    text carries the grouped mileage and whose link is the one received;
    the webhook payload built from it counts one post. *)
Example scenario_one_row :
  let run :=
    generate_posts unused_str unused_str unused_str unused_int
      (warehouse [toyota_row (AInt 2020)]) None
      (fresh_world sample_morning
         (answering 200 (Some (JObj {[ "link" := JAtom (AStr "https://t.co/1") ]})))) in
  match fst run with
  | Ok [p] =>
      post_tracking_link p = JAtom (AStr "https://t.co/1") /\
      Str.contains "Toyota Corolla - 2020 - 50,000" (post_content p) = true /\
      post_generated_at p = "2025-03-07T09:05:01" /\
      build_payload [p] "2025-03-07T09:05:01" !! "total_count" = Some (PvInt 1) /\
      build_payload [p] "2025-03-07T09:05:01" !! "post_1" = Some (PvPost p)
  | _ => False
  end /\
  length (sent (snd run)) = 1.
Proof. vm_compute. repeat split; reflexivity. Qed.

(** No row: no post, and nothing to deliver. *)
Example scenario_no_row :
  fst (generate_posts unused_str unused_str unused_str unused_int
         (warehouse []) None (fresh_world sample_morning (answering 200 None)))
    = Ok [] /\
  fst (send_posts_to_webhook [] (fresh_world sample_morning (answering 200 None)))
    = Ok false.
Proof. split; vm_compute; reflexivity. Qed.

(** One row whose make is null: the record is skipped and counted as a
    failure, and no request leaves the program. *)
Example scenario_null_make :
  generate_posts unused_str unused_str unused_str unused_int
    (warehouse [<["car_make" := ANone]> (toyota_row (AInt 2020))]) None
    (fresh_world sample_morning (answering 200 None))
  = (Ok [],
     {| clock := fun _ => sample_morning; ticks := 0;
        network := answering 200 None; sent := [];
        executed := [DEFAULT_QUERY];
        page := [(Info, "❌ Posts failed: 1"); (Info, "✅ Posts generated successfully: 0"); (Info, "🚗 Total flash sale cars found: 1")] |}).
Proof. vm_compute. reflexivity. Qed.

(** ** Closed examples for the further properties *)

(** The service answers with a link under [url] only: that link is
    returned, and it is truthy. *)
Lemma tracking_link_populated_witness :
  truthy (JAtom (AStr "https://t.co/9")) = true.
Proof.
  apply (tracking_link_always_populated unused_str (AStr "ABC123") (AStr "v1")
           (fresh_world sample_morning
              (answering 200 (Some (JObj {[ "url" := JAtom (AStr "https://t.co/9") ]}))))).
  vm_compute. reflexivity.
Defined.

(** A good row followed by a row whose year is the text ["n/a"]: the
    whole fetch comes back empty. *)
Lemma one_bad_row_witness :
  get_flash_sale_cars unused_int
    (warehouse [toyota_row (AInt 2020); toyota_row (AStr "n/a")]) None
    (fresh_world sample_morning (answering 200 None))
  = (Ok [], log_query DEFAULT_QUERY (fresh_world sample_morning (answering 200 None))).
Proof.
  apply (one_bad_row_empties_the_batch unused_int
           (warehouse [toyota_row (AInt 2020); toyota_row (AStr "n/a")])
           (fun _ => Ok [toyota_row (AInt 2020); toyota_row (AStr "n/a")])
           None (fresh_world sample_morning (answering 200 None))
           [toyota_row (AInt 2020); toyota_row (AStr "n/a")]
           (toyota_row (AStr "n/a")) ValueError).
  - reflexivity.
  - discriminate.
  - reflexivity.
  - right. left. reflexivity.
  - vm_compute. reflexivity.
Defined.

(** The scenario's row without its [car_model] column. *)
Lemma missing_column_witness :
  exists e, normalize_row unused_int (delete "car_model" (toyota_row (AInt 2020)))
            = Raise e.
Proof.
  apply (missing_column_raises unused_int
           (delete "car_model" (toyota_row (AInt 2020))) "car_model").
  - vm_compute. tauto.
  - vm_compute. reflexivity.
Defined.

(** The scenario's row with a null make and a null mileage. *)
Lemma normalized_record_witness :
  exists c,
    normalize_row unused_int
      (<["car_make" := ANone]> (<["kilometrage" := AFloat S754_nan]>
         (toyota_row (AInt 2020)))) = Ok c /\
    make c = AStr "Unknown" /\ pd_isna (make c) = false /\
    kilometers c = AInt 0.
Proof.
  eexists. split; [vm_compute; reflexivity|].
  split; [reflexivity|]. split; [|reflexivity].
  apply (normalized_record_invariant unused_int
           (<["car_make" := ANone]> (<["kilometrage" := AFloat S754_nan]>
              (toyota_row (AInt 2020))))).
  vm_compute. reflexivity.
Defined.

Lemma normalized_record_renders_witness :
  exists k,
    kilometers (toyota (AStr "v1") (AStr "Toyota")) = AInt k /\
    generate_post_content unused_str unused_str unused_str
      (toyota (AStr "v1") (AStr "Toyota")) (JAtom (AStr "elajans.link"))
      (fresh_world sample_morning (answering 200 None))
    = (format_post_template unused_str unused_str unused_str
         (AStr "Toyota") (AStr "Corolla") (AInt 2020) (AInt k)
         (JAtom (AStr "elajans.link")),
       fresh_world sample_morning (answering 200 None)) /\
    exists s,
      format_post_template unused_str unused_str unused_str
        (AStr "Toyota") (AStr "Corolla") (AInt 2020) (AInt k)
        (JAtom (AStr "elajans.link")) = Ok s.
Proof.
  apply (normalized_record_renders_template unused_str unused_str unused_str
           unused_int
           (toyota_row (AFloat (S754_finite false 4041 (-1))))).
  vm_compute. reflexivity.
Defined.

(** Credentials in the secrets, no file: the generator is constructed and
    holds the client made from the secrets' credentials. *)
Lemma constructed_generator_witness :
  exists c cl,
    (secrets_credentials (sample_host None []) = inr c \/
     file_credentials (sample_host None []) = inr c) /\
    new_client (sample_host None []) c = inr cl /\
    client {| client := Some (fun _ => Ok []) |} = Some cl.
Proof.
  apply (constructed_generator_has_client (sample_host None [])
           {| client := Some (fun _ => Ok []) |}).
  reflexivity.
Defined.

(** Neither secrets nor file: the constructor raises its own exception. *)
Lemma constructor_failure_witness :
  let h := {| session_custom_query := None;
              secrets_credentials := inl (SKeyError "'service_account'");
              file_credentials := inl (SFileNotFoundError "service_account.json");
              new_client := fun _ => inr (fun _ => Ok []) |} in
  secrets_credentials h = inl (SException "BigQuery client initialization failed") \/
  file_credentials h = inl (SException "BigQuery client initialization failed") \/
  SException "BigQuery client initialization failed"
    = SException "BigQuery client initialization failed".
Proof.
  exact (constructor_failure
           {| session_custom_query := None;
              secrets_credentials := inl (SKeyError "'service_account'");
              file_credentials := inl (SFileNotFoundError "service_account.json");
              new_client := fun _ => inr (fun _ => Ok []) |}
           (SException "BigQuery client initialization failed") eq_refl).
Defined.

(** One row, a link service that is down and a webhook that accepts: one
    post with the fallback link, one link request and then the webhook
    request. *)
Lemma run_delivers_once_witness :
  exists r w1 w2 reqs,
    run_flash_sale_generation unused_str unused_str unused_str unused_int unused_str
      (sample_host None [toyota_row (AInt 2020)])
      (fresh_world sample_morning (answering 200 None)) = (Ok r, w2) /\
    generate_posts unused_str unused_str unused_str unused_int
      {| client := Some (fun _ => Ok [toyota_row (AInt 2020)]) |} None
      (fresh_world sample_morning (answering 200 None)) = (Ok (result_posts r), w1) /\
    length reqs = total_posts r /\
    Forall is_link_request reqs /\
    match result_posts r with
    | [] => sent w2 = [] /\ webhook_success r = false
    | _ =>
        exists payload,
          sent w2 = webhook_request payload :: reqs ++ [] /\
          payload = build_payload (result_posts r) (isoformat (clock w1 (ticks w1))) /\
          fst (send_posts_to_webhook (result_posts r) w1) = Ok (webhook_success r)
    end.
Proof.
  exact (run_delivers_once unused_str unused_str unused_str unused_int unused_str
           (sample_host None [toyota_row (AInt 2020)])
           {| client := Some (fun _ => Ok [toyota_row (AInt 2020)]) |}
           (fresh_world sample_morning (answering 200 None)) eq_refl).
Defined.

(** A morning and an evening request of the same day for the same
    vehicle: the link names agree, and so do day and name. *)
Lemma link_names_witness :
  dt_date sample_morning = dt_date sample_evening /\ "ABC123" = "ABC123".
Proof.
  apply (link_names_do_not_collide unused_str sample_morning sample_evening
           "ABC123" "ABC123" (AStr "v1") (AStr "v2")).
  - unfold calendar_date, sample_morning. cbn [dt_date d_year d_month d_day].
    repeat split; lia.
  - unfold calendar_date, sample_evening. cbn [dt_date d_year d_month d_day].
    repeat split; lia.
  - vm_compute. reflexivity.
Defined.

(** The whole run of the end-to-end scenario: success, one post, delivered. *)
Example scenario_whole_run :
  match fst (run_flash_sale_generation unused_str unused_str unused_str unused_int
               unused_str (sample_host None [toyota_row (AInt 2020)])
               (fresh_world sample_morning
                  (answering 200
                     (Some (JObj {[ "link" := JAtom (AStr "https://t.co/1") ]}))))) with
  | Ok r =>
      success r = true /\ total_posts r = 1 /\ webhook_success r = true /\
      error r = None /\
      post_tracking_link <$> result_posts r = [JAtom (AStr "https://t.co/1")]
  | Raise _ => False
  end.
Proof. vm_compute. repeat split; reflexivity. Qed.

(** Only [url] holds a link: it is the first truthy value. *)
Lemma first_truthy_key_witness :
  fst (create_tracking_link unused_str (AStr "ABC123") (AStr "v1")
         (fresh_world sample_morning
            (answering 200
               (Some (JObj (<["tracking_link" := JAtom ANone]>
                              {[ "url" := JAtom (AStr "https://t.co/9") ]}))))))
  = Ok (JAtom (AStr "https://t.co/9")).
Proof.
  pose proof (first_truthy_key_wins unused_str (AStr "ABC123") (AStr "v1")
                (fresh_world sample_morning
                   (answering 200
                      (Some (JObj (<["tracking_link" := JAtom ANone]>
                                     {[ "url" := JAtom (AStr "https://t.co/9") ]})))))
                {| status_code := 200; text := "";
                   resp_json :=
                     Some (JObj (<["tracking_link" := JAtom ANone]>
                                   {[ "url" := JAtom (AStr "https://t.co/9") ]})) |}
                (<["tracking_link" := JAtom ANone]>
                   {[ "url" := JAtom (AStr "https://t.co/9") ]})
                eq_refl eq_refl eq_refl) as H.
  rewrite H. vm_compute. reflexivity.
Defined.

(** The session holds a query that names two columns only. *)
Lemma rejected_session_query_witness :
  exists w',
    run_flash_sale_generation unused_str unused_str unused_str unused_int unused_str
      (sample_host (Some "SELECT car_make, car_model FROM cars")
         [toyota_row (AInt 2020)])
      (fresh_world sample_morning (answering 200 None))
    = (Ok {| success := true; result_posts := []; webhook_success := false;
             total_posts := 0; error := None |}, w') /\
    sent w' = [] /\ executed w' = [] /\ ticks w' = 0 /\
    page w' =
      [(Error, "Please ensure your query returns all required columns with exact names.");
       (Error, "❌ Custom query is missing required columns: " +:+ Str.join ", "
                 (snd (validate_query_columns "SELECT car_make, car_model FROM cars")))].
Proof.
  apply (rejected_session_query_ends_quietly unused_str unused_str unused_str
           unused_int unused_str
           (sample_host (Some "SELECT car_make, car_model FROM cars")
              [toyota_row (AInt 2020)])
           {| client := Some (fun _ => Ok [toyota_row (AInt 2020)]) |}
           "SELECT car_make, car_model FROM cars"
           (fresh_world sample_morning (answering 200 None))).
  - reflexivity.
  - reflexivity.
  - discriminate.
  - vm_compute. reflexivity.
Defined.

(** X11, witness: a query that passes keeps passing inside a longer
    statement. *)
Lemma validation_is_monotone_witness :
  fst (validate_query_columns
         ("WITH cars AS (" +:+ plain_query +:+ ") SELECT * FROM cars")) = true.
Proof.
  apply (proj1 (proj2 (validation_is_monotone "WITH cars AS (" plain_query
                         ") SELECT * FROM cars" eq_refl eq_refl eq_refl))).
  vm_compute. reflexivity.
Defined.
